(** * Recipe bot: recipe source adapter, favorites store and browsing sessions

    A shallow embedding of [main.py]: the Spoonacular adapter with its local
    fallback table, the [favorites] table of [recipes.db], and the two
    callback handlers that move a cursor over the list kept in
    [context.user_data]. *)

From Stdlib Require Import ZArith NArith List Bool Lia String Ascii DecimalString.
From Stdlib Require DecimalPos.
Import ListNotations.
Local Open Scope Z_scope.

(** ** Python strings

    A [str] is a sequence of Unicode code points.  Literals are written as
    UTF-8 text and decoded, so that they read as they do in the source. *)

Module PyStr.

Definition pystr := list N.

Definition cont (b : N) : N := N.land b 63.

(** UTF-8 decoding of the bytes of a literal (well-formed input only). *)
Fixpoint utf8_decode (bs : list N) : pystr :=
  match bs with
  | [] => []
  | b :: rest =>
      if (b <? 128)%N then b :: utf8_decode rest
      else if (b <? 224)%N then
        match rest with
        | b1 :: rest1 =>
            (N.shiftl (N.land b 31) 6 + cont b1)%N :: utf8_decode rest1
        | _ => []
        end
      else if (b <? 240)%N then
        match rest with
        | b1 :: b2 :: rest2 =>
            (N.shiftl (N.land b 15) 12 + N.shiftl (cont b1) 6 + cont b2)%N
              :: utf8_decode rest2
        | _ => []
        end
      else
        match rest with
        | b1 :: b2 :: b3 :: rest3 =>
            (N.shiftl (N.land b 7) 18 + N.shiftl (cont b1) 12
             + N.shiftl (cont b2) 6 + cont b3)%N :: utf8_decode rest3
        | _ => []
        end
  end.

Definition str (s : string) : pystr :=
  utf8_decode (map (fun b => N.of_nat (Byte.to_nat b)) (list_byte_of_string s)).

Definition nl : pystr := [10%N].

Definition str_eqb (a b : pystr) : bool :=
  if list_eq_dec N.eq_dec a b then true else false.

(** [len(s)] as a Python int. *)
Definition len {A} (l : list A) : Z := Z.of_nat (List.length l).

(** [s.startswith(p)]. *)
Fixpoint startswith (s p : pystr) {struct p} : bool :=
  match p with
  | [] => true
  | c :: p' =>
      match s with
      | [] => false
      | d :: s' => (c =? d)%N && startswith s' p'
      end
  end.

(** [needle in hay]: substring test. *)
Fixpoint contains (needle hay : pystr) : bool :=
  startswith hay needle ||
  match hay with
  | [] => false
  | _ :: hay' => contains needle hay'
  end.

(** [str.isspace] for one character (CPython's [_PyUnicode_IsWhitespace]). *)
Definition isspace (c : N) : bool :=
  ((9 <=? c) && (c <=? 13) || (28 <=? c) && (c <=? 32)
   || (c =? 133) || (c =? 160) || (c =? 5760)
   || (8192 <=? c) && (c <=? 8202) || (c =? 8232) || (c =? 8233)
   || (c =? 8239) || (c =? 8287) || (c =? 12288))%N.

Fixpoint lstrip (s : pystr) : pystr :=
  match s with
  | c :: s' => if isspace c then lstrip s' else s
  | [] => []
  end.

Definition rstrip (s : pystr) : pystr := rev (lstrip (rev s)).

(** [s.strip()]. *)
Definition strip (s : pystr) : pystr := rstrip (lstrip s).

(** [s.replace(old, new)] for a one-character [old]. *)
Definition replace (old : N) (new : pystr) (s : pystr) : pystr :=
  flat_map (fun c => if (c =? old)%N then new else [c]) s.

(** [s.split(sep)] for a one-character [sep]: every occurrence splits, and
    empty pieces are kept. *)
Fixpoint split (sep : N) (s : pystr) : list pystr :=
  match s with
  | [] => [[]]
  | c :: s' =>
      if (c =? sep)%N then [] :: split sep s'
      else match split sep s' with
           | p :: ps => (c :: p) :: ps
           | [] => [[c]]
           end
  end.

(** [sep.join(parts)]. *)
Fixpoint join (sep : pystr) (parts : list pystr) : pystr :=
  match parts with
  | [] => []
  | [p] => p
  | p :: ps => p ++ sep ++ join sep ps
  end.

(** [str(n)] for an int: its decimal representation. *)
Definition str_of_int (z : Z) : pystr :=
  str (NilZero.string_of_int (Z.to_int z)).

(** Truth value of a string: non-empty. *)
Definition truthy (s : pystr) : bool :=
  match s with [] => false | _ => true end.

End PyStr.
Import PyStr.

(** ** Data model *)

(** A recipe summary: the dict with keys [id], [title], [image],
    [usedIngredientCount] and [missedIngredientCount].  [image] may hold
    [None]. *)
Record Recipe := {
  id : Z;
  title : pystr;
  image : option pystr;
  usedIngredientCount : Z;
  missedIngredientCount : Z
}.

(** A row of the [favorites] table. *)
Record favorite_row := {
  row_id : Z;
  recipe_id : Z;
  row_title : pystr;
  row_image : option pystr;
  used_ingredients : Z;
  missed_ingredients : Z;
  user_id : Z
}.

Definition favorites_table := list favorite_row.

(** The query of [requests.get(url, params=params, timeout=10)]. *)
Record request := {
  url : pystr;
  ingredients_param : pystr;
  apiKey : pystr;
  number : Z;
  ranking : Z;
  ignorePantry : bool;
  timeout : Z
}.

(** What one call of [requests.get] followed by [response.json()] can give:
    the call raises a [RequestException], or it returns a response with a
    status code whose body either fails to parse ([None]) or parses, taken
    here at the type the annotations give it. *)
Inductive http_outcome (A : Type) :=
| Transport_error
| Response (status_code : Z) (json : option A).
Arguments Transport_error {A}.
Arguments Response {A} status_code json.

(** The payload of [/recipes/{id}/information]: the names under
    [extendedIngredients] and, per entry of [analyzedInstructions], the
    [(number, step)] pairs of its [steps]. *)
Record information := {
  extendedIngredients : list pystr;
  analyzedInstructions : list (list (Z * pystr))
}.

(** The process environment and the remote service. *)
Record env := {
  SPOONACULAR_API_KEY : option pystr;
  findByIngredients : request -> http_outcome (list Recipe);
  recipe_information : Z -> http_outcome information
}.

(** The dict returned by the detail functions: empty, or holding
    [ingredients] and [instructions]. *)
Definition details := option (pystr * pystr).

(** ** Chat transport *)

Record InlineKeyboardButton := {
  text : pystr;
  callback_data : pystr
}.

Definition InlineKeyboardMarkup := list (list InlineKeyboardButton).

(** The calls made on the chat transport, in the order they are made. *)
Inductive event :=
| answer
| reply_text (msg : pystr)
| delete_message (chat_id message_id : Z)
| send_photo (chat_id : Z) (photo caption : pystr) (markup : InlineKeyboardMarkup)
| send_message (chat_id : Z) (caption : pystr) (markup : InlineKeyboardMarkup)
| edit_message_reply_markup (markup : option InlineKeyboardMarkup).

(** [context.user_data]: a dict used with six fixed keys; [None] is an
    absent key. *)
Record user_data := {
  recipes : option (list Recipe);
  current_recipe_index : option Z;
  last_photo_message_id : option Z;
  favorites : option (list Recipe);
  current_favorite_index : option Z;
  last_fav_photo_message_id : option Z
}.

Definition empty_user_data : user_data :=
  {| recipes := None; current_recipe_index := None;
     last_photo_message_id := None; favorites := None;
     current_favorite_index := None; last_fav_photo_message_id := None |}.

(** Everything a handler reads or changes.  [next_message_id] stands for the
    identifier the transport gives to the next message sent. *)
Record world := {
  environ : env;
  db : favorites_table;
  ud : user_data;
  next_message_id : Z;
  sent : list event
}.

(** An incoming update: who pressed or wrote, where, and whether it carries
    a message ([update.message] is [None] for a button press). *)
Record Update := {
  effective_user : Z;
  effective_chat : Z;
  has_message : bool
}.

(** Handler results: [None], or a conversation state. *)
Definition END : Z := -1.
Definition SEARCH : Z := 0.
Definition FAVORITES : Z := 1.

(** ** Handlers as state transformers that may raise *)

Inductive exn := ValueError | AttributeError | IndexError.

Inductive res (A : Type) :=
| Ok (a : A)
| Raise (e : exn).
Arguments Ok {A} a.
Arguments Raise {A} e.

Definition M (A : Type) := world -> res A * world.

Definition ret {A} (a : A) : M A := fun w => (Ok a, w).

Definition bind {A B} (m : M A) (k : A -> M B) : M B :=
  fun w => match m w with
           | (Ok a, w') => k a w'
           | (Raise e, w') => (Raise e, w')
           end.

Definition raise {A} (e : exn) : M A := fun w => (Raise e, w).

Definition get {A} (f : world -> A) : M A := fun w => (Ok (f w), w).

Definition modify (f : world -> world) : M unit := fun w => (Ok tt, f w).

(** [try: m except Exception: h]. *)
Definition try_except {A} (m : M A) (h : M A) : M A :=
  fun w => match m w with
           | (Ok a, w') => (Ok a, w')
           | (Raise _, w') => h w'
           end.

Notation "x <- m ;; k" := (bind m (fun x => k))
  (at level 61, m at next level, right associativity).
Notation "m ;;; k" := (bind m (fun _ => k))
  (at level 61, right associativity).

Definition set_db (d : favorites_table) (w : world) : world :=
  {| environ := environ w; db := d; ud := ud w;
     next_message_id := next_message_id w; sent := sent w |}.

Definition set_ud (u : user_data) (w : world) : world :=
  {| environ := environ w; db := db w; ud := u;
     next_message_id := next_message_id w; sent := sent w |}.

Definition emit (e : event) : M unit :=
  modify (fun w =>
    {| environ := environ w; db := db w; ud := ud w;
       next_message_id := next_message_id w; sent := sent w ++ [e] |}).

(** Sending returns the new message's identifier. *)
Definition send (e : event) : M Z :=
  fun w =>
    (Ok (next_message_id w),
     {| environ := environ w; db := db w; ud := ud w;
        next_message_id := next_message_id w + 1; sent := sent w ++ [e] |}).

Definition set_recipes (v : list Recipe) (u : user_data) : user_data :=
  {| recipes := Some v; current_recipe_index := current_recipe_index u;
     last_photo_message_id := last_photo_message_id u;
     favorites := favorites u;
     current_favorite_index := current_favorite_index u;
     last_fav_photo_message_id := last_fav_photo_message_id u |}.

Definition set_current_recipe_index (v : Z) (u : user_data) : user_data :=
  {| recipes := recipes u; current_recipe_index := Some v;
     last_photo_message_id := last_photo_message_id u;
     favorites := favorites u;
     current_favorite_index := current_favorite_index u;
     last_fav_photo_message_id := last_fav_photo_message_id u |}.

Definition set_last_photo_message_id (v : Z) (u : user_data) : user_data :=
  {| recipes := recipes u; current_recipe_index := current_recipe_index u;
     last_photo_message_id := Some v;
     favorites := favorites u;
     current_favorite_index := current_favorite_index u;
     last_fav_photo_message_id := last_fav_photo_message_id u |}.

Definition set_favorites (v : list Recipe) (u : user_data) : user_data :=
  {| recipes := recipes u; current_recipe_index := current_recipe_index u;
     last_photo_message_id := last_photo_message_id u;
     favorites := Some v;
     current_favorite_index := current_favorite_index u;
     last_fav_photo_message_id := last_fav_photo_message_id u |}.

Definition set_current_favorite_index (v : Z) (u : user_data) : user_data :=
  {| recipes := recipes u; current_recipe_index := current_recipe_index u;
     last_photo_message_id := last_photo_message_id u;
     favorites := favorites u;
     current_favorite_index := Some v;
     last_fav_photo_message_id := last_fav_photo_message_id u |}.

Definition set_last_fav_photo_message_id (v : Z) (u : user_data) : user_data :=
  {| recipes := recipes u; current_recipe_index := current_recipe_index u;
     last_photo_message_id := last_photo_message_id u;
     favorites := favorites u;
     current_favorite_index := current_favorite_index u;
     last_fav_photo_message_id := Some v |}.

(** [d.get(key, default)]. *)
Definition get_or {A} (o : option A) (default : A) : A :=
  match o with Some a => a | None => default end.

(** [l[i]], with Python's negative indices. *)
Definition getitem {A} (l : list A) (i : Z) : option A :=
  if (0 <=? i) && (i <? len l) then nth_error l (Z.to_nat i)
  else if (- len l <=? i) && (i <? 0) then nth_error l (Z.to_nat (len l + i))
  else None.

(** [response.raise_for_status()] raises for a client or server error
    status, that is for [400 <= status_code < 600]. *)
Definition raise_for_status (status_code : Z) : bool :=
  (400 <=? status_code) && (status_code <? 600).

Definition is_empty {A} (l : list A) : bool :=
  match l with [] => true | _ => false end.

(** [os.getenv(name)] as a condition: set and non-empty. *)
Definition getenv_truthy (v : option pystr) : bool :=
  match v with Some k => truthy k | None => false end.

(** A button press: [query.from_user.id], the chat of the pressed message
    and [query.data]. *)
Record CallbackQuery := {
  from_user : Z;
  chat : Z;
  data : pystr
}.

Definition update_of_query (q : CallbackQuery) : Update :=
  {| effective_user := from_user q; effective_chat := chat q;
     has_message := false |}.

(** ** Reference built-ins

    One [lower] and one [int] to run the program on plain inputs: [lower]
    maps the capitals of Basic Latin, Latin-1 and Cyrillic and keeps every
    other character; [int_decimal] reads an optionally signed run of ASCII
    digits, surrounding whitespace allowed, and rejects anything else. *)

Definition lower_char (c : N) : N :=
  if ((65 <=? c) && (c <=? 90))%N then (c + 32)%N
  else if ((192 <=? c) && (c <=? 222) && negb (c =? 215))%N then (c + 32)%N
  else if ((1040 <=? c) && (c <=? 1071))%N then (c + 32)%N
  else if ((1024 <=? c) && (c <=? 1039))%N then (c + 80)%N
  else c.

Definition lower_simple (s : pystr) : pystr := map lower_char s.

Fixpoint digits (acc : Z) (s : pystr) : option Z :=
  match s with
  | [] => Some acc
  | c :: s' =>
      if ((48 <=? c) && (c <=? 57))%N then digits (10 * acc + Z.of_N (c - 48)) s'
      else None
  end.

Definition unsigned_decimal (s : pystr) : option Z :=
  match s with
  | [] => None
  | _ => digits 0 s
  end.

Definition int_decimal (s : pystr) : option Z :=
  match strip s with
  | [] => None
  | c :: t =>
      if (c =? 45)%N then option_map Z.opp (unsigned_decimal t)
      else if (c =? 43)%N then unsigned_decimal t
      else unsigned_decimal (c :: t)
  end.

(** ** Sample environments and stores *)

Definition sample_recipe (n : Z) : Recipe :=
  {| id := n; title := str "Pancakes"; image := None;
     usedIngredientCount := 1; missedIngredientCount := 0 |}.

(** No credential; the remote service is never reached. *)
Definition env_no_key : env :=
  {| SPOONACULAR_API_KEY := None;
     findByIngredients := fun _ => Transport_error;
     recipe_information := fun _ => Transport_error |}.

(** A credential and a service answering every search with [status_code]
    and the parsed body [l]. *)
Definition env_answering (status_code : Z) (l : option (list Recipe)) : env :=
  {| SPOONACULAR_API_KEY := Some (str "key");
     findByIngredients := fun _ => Response status_code l;
     recipe_information := fun _ => Transport_error |}.

(** A credential and an unreachable service. *)
Definition env_unreachable : env :=
  {| SPOONACULAR_API_KEY := Some (str "key");
     findByIngredients := fun _ => Transport_error;
     recipe_information := fun _ => Transport_error |}.

(** A credential and a service answering every detail request with
    [status_code] and the parsed body [d]. *)
Definition env_detailing (status_code : Z) (d : option information) : env :=
  {| SPOONACULAR_API_KEY := Some (str "key");
     findByIngredients := fun _ => Transport_error;
     recipe_information := fun _ => Response status_code d |}.

(** A detail payload with no ingredients and an empty first group of
    steps before a second one. *)
Definition sample_information : information :=
  {| extendedIngredients := [];
     analyzedInstructions := [[]; [(1, str "Mix")]] |}.

Definition eleven_recipes : list Recipe :=
  map sample_recipe [1; 2; 3; 4; 5; 6; 7; 8; 9; 10; 11].

(** A fresh process: empty table, empty [user_data], nothing sent. *)
Definition fresh (e : env) : world :=
  {| environ := e; db := []; ud := empty_user_data;
     next_message_id := 1; sent := [] |}.

(** A search-mode browsing state over [items] at [cursor], and a
    favorites-mode one. *)
Definition browsing (items : list Recipe) (cursor : Z) : world :=
  {| environ := env_no_key; db := [];
     ud := set_current_recipe_index cursor (set_recipes items empty_user_data);
     next_message_id := 1; sent := [] |}.

Definition browsing_favorites (items : list Recipe) (cursor : Z) : world :=
  {| environ := env_no_key; db := [];
     ud := set_current_favorite_index cursor
             (set_favorites items empty_user_data);
     next_message_id := 1; sent := [] |}.

(** A stored favorite of user [uid] and a fresh process over a table. *)
Definition sample_row (rid uid : Z) : favorite_row :=
  {| row_id := 1; recipe_id := rid; row_title := str "Pancakes";
     row_image := None; used_ingredients := 1; missed_ingredients := 0;
     user_id := uid |}.

Definition stored (t : favorites_table) : world :=
  {| environ := env_no_key; db := t; ud := empty_user_data;
     next_message_id := 1; sent := [] |}.

Definition text_update (uid : Z) : Update :=
  {| effective_user := uid; effective_chat := uid; has_message := true |}.

Definition press (uid : Z) (action : string) : CallbackQuery :=
  {| from_user := uid; chat := uid; data := str action |}.

(** ** The program

    [str.lower] and [int] are the language's own: the program is embedded
    over any two functions [lower] and [py_int] ([None] when [int] raises
    [ValueError]). *)

Section Bot.

Variable lower : pystr -> pystr.
Variable py_int : pystr -> option Z.

(** *** Recipe source adapter *)

Definition ingredients_cleaned (ingredients : pystr) : pystr :=
  lower (replace 32 (str "+") (strip ingredients)).

Definition params (api_key ingredients : pystr) : request :=
  {| url := str "https://api.spoonacular.com/recipes/findByIngredients";
     ingredients_param := ingredients_cleaned ingredients;
     apiKey := api_key;
     number := 10;
     ranking := 2;
     ignorePantry := true;
     timeout := 10 |}.

Definition _call_spoonacular_api (e : env) (ingredients : pystr) : list Recipe :=
  match SPOONACULAR_API_KEY e with
  | None => []
  | Some api_key =>
      if negb (truthy api_key) then []
      else
        match findByIngredients e (params api_key ingredients) with
        | Transport_error => []
        | Response status_code json =>
            if status_code =? 402 then []
            else if raise_for_status status_code then []
            else match json with
                 | None => []
                 | Some l => l
                 end
        end
  end.

Definition not_specified : pystr := str "Не указаны".

(** [x or default] on strings. *)
Definition or_else (x default : pystr) : pystr :=
  if truthy x then x else default.

Definition get_recipe_details (e : env) (recipe_id : Z) : details :=
  if negb (getenv_truthy (SPOONACULAR_API_KEY e)) then None
  else
    match recipe_information e recipe_id with
    | Transport_error => None
    | Response status_code json =>
        if raise_for_status status_code then None
        else match json with
             | None => None
             | Some d =>
                 let ingredients :=
                   join nl (map (fun n => str "- " ++ n) (extendedIngredients d)) in
                 let instructions :=
                   match analyzedInstructions d with
                   | [] => []
                   | steps :: _ =>
                       List.concat (map (fun s => str_of_int (fst s) ++ str ". "
                                             ++ snd s ++ nl) steps)
                   end in
                 Some (or_else ingredients not_specified,
                       or_else instructions not_specified)
             end
    end.

Definition basic_recipes : list Recipe :=
  [ {| id := 1;
       title := str "Омлет с молоком";
       image := Some (str "https://spoonacular.com/recipeImages/1-312x231.jpg");
       usedIngredientCount := 2;
       missedIngredientCount := 1 |};
    {| id := 2;
       title := str "Блины на молоке";
       image := Some (str "https://spoonacular.com/recipeImages/2-312x231.jpg");
       usedIngredientCount := 3;
       missedIngredientCount := 2 |} ].

Definition get_local_recipes (ingredients : pystr) : list Recipe :=
  let ingredients_lower := lower ingredients in
  filter (fun _ => contains (str "яйца") ingredients_lower
                   && contains (str "молоко") ingredients_lower)
         basic_recipes.

Definition get_local_recipe_details (recipe_id : Z) : details :=
  if recipe_id =? 1 then
    Some (str "- Яйца" ++ nl ++ str "- Молоко" ++ nl ++ str "- Соль",
          str "1. Взбить яйца с молоком" ++ nl ++ str "2. Добавить соль" ++ nl
          ++ str "3. Жарить на сковороде")
  else if recipe_id =? 2 then
    Some (str "- Молоко" ++ nl ++ str "- Мука" ++ nl ++ str "- Яйца" ++ nl
          ++ str "- Сахар",
          str "1. Смешать ингредиенты" ++ nl
          ++ str "2. Жарить на раскаленной сковороде")
  else None.

(** Neither callee raises here, so the [except] branch of the source (which
    returns the local recipes as well) is never taken. *)
Definition search_recipes (e : env) (ingredients : pystr) : list Recipe :=
  let api_recipes := _call_spoonacular_api e ingredients in
  if negb (is_empty api_recipes) then api_recipes
  else get_local_recipes ingredients.

(** *** Favorites store *)

(** The rowid SQLite gives a row inserted without one: one more than the
    largest in the table. *)
Definition next_row_id (t : favorites_table) : Z :=
  fold_right (fun r m => Z.max (row_id r) m) 0 t + 1.

Definition add_favorite (recipe : Recipe) (uid : Z) (t : favorites_table)
  : favorites_table :=
  t ++ [ {| row_id := next_row_id t;
            recipe_id := id recipe;
            row_title := title recipe;
            row_image := image recipe;
            used_ingredients := usedIngredientCount recipe;
            missed_ingredients := missedIngredientCount recipe;
            user_id := uid |} ].

Definition matches (rid uid : Z) (r : favorite_row) : bool :=
  (recipe_id r =? rid) && (user_id r =? uid).

Definition remove_favorite (rid uid : Z) (t : favorites_table)
  : favorites_table :=
  filter (fun r => negb (matches rid uid r)) t.

Definition get_favorites (uid : Z) (t : favorites_table) : list Recipe :=
  map (fun r => {| id := recipe_id r;
                   title := row_title r;
                   image := row_image r;
                   usedIngredientCount := used_ingredients r;
                   missedIngredientCount := missed_ingredients r |})
      (filter (fun r => user_id r =? uid) t).

Definition is_favorite (rid uid : Z) (t : favorites_table) : bool :=
  existsb (matches rid uid) t.

(** *** Rendering *)

(** [update.message.reply_text(msg)]: [update.message] is [None] when the
    update is a button press. *)
Definition message_reply_text (update : Update) (msg : pystr) : M unit :=
  if has_message update then emit (reply_text msg) else raise AttributeError.

Definition details_get (d : details) (key : pystr * pystr -> pystr) : pystr :=
  match d with
  | Some p => key p
  | None => not_specified
  end.

Definition caption_of (recipe : Recipe) (full_recipe_info : details) : pystr :=
  str "<b>" ++ title recipe ++ str "</b>" ++ nl ++ nl
  ++ str "<b>Ингредиенты:</b>" ++ nl ++ details_get full_recipe_info fst
  ++ nl ++ nl
  ++ str "<b>Инструкции:</b>" ++ nl ++ details_get full_recipe_info snd
  ++ nl ++ nl
  ++ str "Использовано ингредиентов: "
  ++ str_of_int (usedIngredientCount recipe) ++ nl
  ++ str "Не хватает: " ++ str_of_int (missedIngredientCount recipe).

Definition fav_label (is_fav : bool) : pystr :=
  if is_fav then str "В избранном" else str "Добавить в избранное".

Definition position (current_index total : Z) : pystr :=
  str_of_int (current_index + 1) ++ str "/" ++ str_of_int total.

Definition recipe_keyboard (is_fav : bool) (recipe : Recipe)
    (current_index total_recipes : Z) : InlineKeyboardMarkup :=
  [ [ {| text := fav_label is_fav;
         callback_data := str "fav_" ++ str_of_int (id recipe) |} ];
    [ {| text := str "Назад"; callback_data := str "prev" |};
      {| text := position current_index total_recipes;
         callback_data := str "count" |};
      {| text := str "Далее"; callback_data := str "next" |} ];
    [ {| text := str "Закончить"; callback_data := str "done" |} ] ].

Definition get_recipe_keyboard (t : favorites_table) (recipe : Recipe)
    (uid current_index total_recipes : Z) : InlineKeyboardMarkup :=
  let is_fav := is_favorite (id recipe) uid t in
  recipe_keyboard is_fav recipe current_index total_recipes.

Definition favorite_keyboard (recipe : Recipe) (current_index total : Z)
  : InlineKeyboardMarkup :=
  [ [ {| text := str "Удалить";
         callback_data := str "remove_" ++ str_of_int (id recipe) |} ];
    [ {| text := str "Назад"; callback_data := str "fav_prev" |};
      {| text := position current_index total;
         callback_data := str "fav_count" |};
      {| text := str "Далее"; callback_data := str "fav_next" |} ];
    [ {| text := str "Закончить"; callback_data := str "fav_done" |} ] ].

(** The detail source of both renderers. *)
Definition full_recipe_info_of (e : env) (recipe_id : Z) : details :=
  if getenv_truthy (SPOONACULAR_API_KEY e) then get_recipe_details e recipe_id
  else get_local_recipe_details recipe_id.

(** [recipe.get("image")] as a condition. *)
Definition image_truthy (recipe : Recipe) : bool :=
  match image recipe with Some u => truthy u | None => false end.

(** Retracting the previous rendering; a failure of the call is swallowed
    by the source, so only the call is recorded. *)
Definition retract (chat_id : Z) (last : option Z) : M unit :=
  match last with
  | Some m => emit (delete_message chat_id m)
  | None => ret tt
  end.

Definition show_recipe (update : Update) : M (option Z) :=
  rs <- get (fun w => get_or (recipes (ud w)) []) ;;
  current_index <- get (fun w => get_or (current_recipe_index (ud w)) 0) ;;
  let uid := effective_user update in
  if is_empty rs || (len rs <=? current_index) then
    message_reply_text update (str "Это все рецепты по вашему запросу!") ;;;
    ret (Some END)
  else
    match getitem rs current_index with
    | None => raise IndexError
    | Some recipe =>
        is_fav <- get (fun w => is_favorite (id recipe) uid (db w)) ;;
        full_recipe_info <-
          get (fun w => full_recipe_info_of (environ w) (id recipe)) ;;
        let caption := caption_of recipe full_recipe_info in
        let reply_markup :=
          recipe_keyboard is_fav recipe current_index (len rs) in
        last <- get (fun w => last_photo_message_id (ud w)) ;;
        retract (effective_chat update) last ;;;
        if image_truthy recipe then
          message_id <- send (send_photo (effective_chat update)
                                (get_or (image recipe) []) caption reply_markup) ;;
          modify (fun w => set_ud (set_last_photo_message_id message_id (ud w)) w) ;;;
          ret None
        else
          send (send_message (effective_chat update) caption reply_markup) ;;;
          ret None
    end.

Definition show_favorite_recipe (update : Update) : M (option Z) :=
  favs <- get (fun w => get_or (favorites (ud w)) []) ;;
  current_index <- get (fun w => get_or (current_favorite_index (ud w)) 0) ;;
  if is_empty favs || (len favs <=? current_index) then
    message_reply_text update (str "Это все ваши избранные рецепты!") ;;;
    ret (Some END)
  else
    match getitem favs current_index with
    | None => raise IndexError
    | Some recipe =>
        full_recipe_info <-
          get (fun w => full_recipe_info_of (environ w) (id recipe)) ;;
        let caption := caption_of recipe full_recipe_info in
        let reply_markup := favorite_keyboard recipe current_index (len favs) in
        last <- get (fun w => last_fav_photo_message_id (ud w)) ;;
        retract (effective_chat update) last ;;;
        message_id <-
          (if image_truthy recipe then
             send (send_photo (effective_chat update)
                     (get_or (image recipe) []) caption reply_markup)
           else
             send (send_message (effective_chat update) caption reply_markup)) ;;
        modify (fun w => set_ud (set_last_fav_photo_message_id message_id (ud w)) w) ;;;
        ret None
    end.

(** *** Conversation controller *)

Definition process_search (update : Update) (ingredients : pystr)
  : M (option Z) :=
  message_reply_text update
    (str "Ищу рецепты с: " ++ ingredients ++ str "...") ;;;
  try_except
    (rs <- get (fun w => search_recipes (environ w) ingredients) ;;
     if is_empty rs then
       message_reply_text update
         (str "Hе найдено рецептов. Попробуйте другие ингредиенты.") ;;;
       ret (Some END)
     else
       modify (fun w => set_ud (set_recipes rs (ud w)) w) ;;;
       modify (fun w => set_ud (set_current_recipe_index 0 (ud w)) w) ;;;
       show_recipe update ;;;
       ret (Some SEARCH))
    (message_reply_text update (str "Ошибка при поиске. Попробуйте позже.") ;;;
     ret (Some END)).

(** [int(action.split("_")[1])]. *)
Definition action_id (action : pystr) : M Z :=
  match getitem (split 95 action) 1 with
  | None => raise IndexError
  | Some part =>
      match py_int part with
      | None => raise ValueError
      | Some n => ret n
      end
  end.

Definition handle_recipe_navigation (query : CallbackQuery) : M (option Z) :=
  let update := update_of_query query in
  emit answer ;;;
  let action := data query in
  current_index <- get (fun w => get_or (current_recipe_index (ud w)) 0) ;;
  rs <- get (fun w => get_or (recipes (ud w)) []) ;;
  if str_eqb action (str "prev") && (0 <? current_index) then
    modify (fun w => set_ud (set_current_recipe_index (current_index - 1) (ud w)) w) ;;;
    show_recipe update ;;; ret None
  else if str_eqb action (str "next") && (current_index <? len rs - 1) then
    modify (fun w => set_ud (set_current_recipe_index (current_index + 1) (ud w)) w) ;;;
    show_recipe update ;;; ret None
  else if startswith action (str "fav_") then
    rid <- action_id action ;;
    let uid := from_user query in
    match find (fun r => id r =? rid) rs with
    | Some recipe =>
        is_fav <- get (fun w => is_favorite rid uid (db w)) ;;
        (if is_fav then
           modify (fun w => set_db (remove_favorite rid uid (db w)) w)
         else
           modify (fun w => set_db (add_favorite recipe uid (db w)) w)) ;;;
        markup <- get (fun w => get_recipe_keyboard (db w) recipe uid
                                  current_index (len rs)) ;;
        emit (edit_message_reply_markup (Some markup)) ;;;
        ret None
    | None => ret None
    end
  else if str_eqb action (str "done") then
    emit (edit_message_reply_markup None) ;;;
    emit (reply_text (str "Поиск завершен. Используйте /search для нового поиска.")) ;;;
    ret (Some END)
  else
    show_recipe update ;;; ret None.

Definition show_favorites (update : Update) : M (option Z) :=
  let uid := effective_user update in
  favs <- get (fun w => get_favorites uid (db w)) ;;
  if is_empty favs then
    message_reply_text update (str "У вас пока нет избранных рецептов.") ;;;
    ret None
  else
    modify (fun w => set_ud (set_favorites favs (ud w)) w) ;;;
    modify (fun w => set_ud (set_current_favorite_index 0 (ud w)) w) ;;;
    show_favorite_recipe update ;;;
    ret (Some FAVORITES).

Definition handle_favorites_navigation (query : CallbackQuery)
  : M (option Z) :=
  let update := update_of_query query in
  emit answer ;;;
  let action := data query in
  current_index <- get (fun w => get_or (current_favorite_index (ud w)) 0) ;;
  favs <- get (fun w => get_or (favorites (ud w)) []) ;;
  if str_eqb action (str "fav_prev") && (0 <? current_index) then
    modify (fun w => set_ud (set_current_favorite_index (current_index - 1) (ud w)) w) ;;;
    show_favorite_recipe update ;;; ret None
  else if str_eqb action (str "fav_next") && (current_index <? len favs - 1) then
    modify (fun w => set_ud (set_current_favorite_index (current_index + 1) (ud w)) w) ;;;
    show_favorite_recipe update ;;; ret None
  else if startswith action (str "remove_") then
    rid <- action_id action ;;
    let uid := from_user query in
    modify (fun w => set_db (remove_favorite rid uid (db w)) w) ;;;
    let favs' := filter (fun f => negb (id f =? rid)) favs in
    modify (fun w => set_ud (set_favorites favs' (ud w)) w) ;;;
    if is_empty favs' then
      emit (reply_text (str "Рецепт удален. Избранных рецептов больше нет.")) ;;;
      ret (Some END)
    else
      (if len favs' <=? current_index then
         modify (fun w => set_ud (set_current_favorite_index (len favs' - 1) (ud w)) w)
       else ret tt) ;;;
      show_favorite_recipe update ;;; ret None
  else if str_eqb action (str "fav_done") then
    emit (edit_message_reply_markup None) ;;;
    ret (Some END)
  else
    show_favorite_recipe update ;;; ret None.

(** *** Browsing sessions

    The cursor and the items of the two modes, as the handlers read them. *)

Definition search_items (w : world) : list Recipe := get_or (recipes (ud w)) [].
Definition search_cursor (w : world) : Z := get_or (current_recipe_index (ud w)) 0.
Definition favorite_items (w : world) : list Recipe := get_or (favorites (ud w)) [].
Definition favorite_cursor (w : world) : Z := get_or (current_favorite_index (ud w)) 0.

Definition cursor_in_bounds (cursor : Z) (items : list Recipe) : Prop :=
  items <> [] -> 0 <= cursor < len items.

Definition session_invariant (w : world) : Prop :=
  cursor_in_bounds (search_cursor w) (search_items w)
  /\ cursor_in_bounds (favorite_cursor w) (favorite_items w).

Definition set_environ (e : env) (w : world) : world :=
  {| environ := e; db := db w; ud := ud w;
     next_message_id := next_message_id w; sent := sent w |}.

(** The states a user's data can be in: it starts empty, and every handler
    call, with any update and any answer of the remote service, gives the
    next one. *)
Inductive reachable : world -> Prop :=
| reach_start w : ud w = empty_user_data -> reachable w
| reach_process_search w update ingredients :
    reachable w -> reachable (snd (process_search update ingredients w))
| reach_recipe_navigation w query :
    reachable w -> reachable (snd (handle_recipe_navigation query w))
| reach_show_favorites w update :
    reachable w -> reachable (snd (show_favorites update w))
| reach_favorites_navigation w query :
    reachable w -> reachable (snd (handle_favorites_navigation query w))
| reach_environ w e :
    reachable w -> reachable (set_environ e w).

(** A favorites-mode session of user [uid]: opened by [show_favorites]
    returning [FAVORITES], and continued by the user's button presses for as
    long as the handler does not return [END]. *)
Inductive favorites_session (uid : Z) : world -> Prop :=
| session_open w update w' :
    effective_user update = uid ->
    show_favorites update w = (Ok (Some FAVORITES), w') ->
    favorites_session uid w'
| session_press w query r w' :
    favorites_session uid w ->
    from_user query = uid ->
    handle_favorites_navigation query w = (r, w') ->
    r <> Ok (Some END) ->
    favorites_session uid w'.

(** *** The normalization as the specification words it

    Trimmed, lower-cased, and every run of whitespace collapsed to one join
    token. *)

Fixpoint collapse_whitespace (in_run : bool) (s : pystr) : pystr :=
  match s with
  | [] => []
  | c :: s' =>
      if isspace c then
        if in_run then collapse_whitespace true s'
        else 43%N :: collapse_whitespace true s'
      else c :: collapse_whitespace false s'
  end.

Definition normalized_as_specified (ingredients : pystr) : pystr :=
  collapse_whitespace false (lower (strip ingredients)).

(** *** Predicates used by the properties *)

Definition counts_non_negative (r : Recipe) : Prop :=
  0 <= usedIngredientCount r /\ 0 <= missedIngredientCount r.

(** What a rendering leaves alone: the table, the environment, and the
    items and cursors of both modes. *)
Definition same_session (w w' : world) : Prop :=
  db w' = db w
  /\ environ w' = environ w
  /\ recipes (ud w') = recipes (ud w)
  /\ current_recipe_index (ud w') = current_recipe_index (ud w)
  /\ favorites (ud w') = favorites (ud w)
  /\ current_favorite_index (ud w') = current_favorite_index (ud w).

(** In step with the store: the items are the user's stored favorites, and
    the cursor is within them. *)
Definition in_step (uid : Z) (w : world) : Prop :=
  favorite_items w = get_favorites uid (db w)
  /\ cursor_in_bounds (favorite_cursor w) (favorite_items w).

(** No (user, recipe) pair is stored twice. *)
Definition stored_once (t : favorites_table) : Prop :=
  NoDup (map (fun r => (recipe_id r, user_id r)) t).

(** The calls a rendering makes on the transport: the retraction of the
    message recorded last, if any, and the message for [recipe] at position
    [current_index] of [total], as [show_recipe] and [show_favorite_recipe]
    build it. *)
Definition retraction (chat_id : Z) (last : option Z) : list event :=
  match last with
  | Some m => [delete_message chat_id m]
  | None => []
  end.

Definition recipe_message (e : env) (t : favorites_table) (update : Update)
    (recipe : Recipe) (current_index total : Z) : event :=
  let caption := caption_of recipe (full_recipe_info_of e (id recipe)) in
  let reply_markup :=
    recipe_keyboard (is_favorite (id recipe) (effective_user update) t)
      recipe current_index total in
  if image_truthy recipe then
    send_photo (effective_chat update) (get_or (image recipe) []) caption
      reply_markup
  else send_message (effective_chat update) caption reply_markup.

Definition favorite_message (e : env) (update : Update) (recipe : Recipe)
    (current_index total : Z) : event :=
  let caption := caption_of recipe (full_recipe_info_of e (id recipe)) in
  let reply_markup := favorite_keyboard recipe current_index total in
  if image_truthy recipe then
    send_photo (effective_chat update) (get_or (image recipe) []) caption
      reply_markup
  else send_message (effective_chat update) caption reply_markup.

(** The characters of a decimal numeral. *)
Fixpoint uint_codes (d : Decimal.uint) : pystr :=
  match d with
  | Decimal.Nil => []
  | Decimal.D0 d => 48%N :: uint_codes d
  | Decimal.D1 d => 49%N :: uint_codes d
  | Decimal.D2 d => 50%N :: uint_codes d
  | Decimal.D3 d => 51%N :: uint_codes d
  | Decimal.D4 d => 52%N :: uint_codes d
  | Decimal.D5 d => 53%N :: uint_codes d
  | Decimal.D6 d => 54%N :: uint_codes d
  | Decimal.D7 d => 55%N :: uint_codes d
  | Decimal.D8 d => 56%N :: uint_codes d
  | Decimal.D9 d => 57%N :: uint_codes d
  end.

(** ** Strings *)

Lemma str_eqb_eq (a b : pystr) : str_eqb a b = true <-> a = b.
Proof.
  unfold str_eqb. destruct (list_eq_dec N.eq_dec a b); split; congruence.
Qed.

Lemma str_eqb_refl (a : pystr) : str_eqb a a = true.
Proof. now apply str_eqb_eq. Qed.

Lemma startswith_app (p s : pystr) : startswith (p ++ s) p = true.
Proof.
  induction p as [|c p IH]; simpl; [reflexivity|].
  now rewrite N.eqb_refl, IH.
Qed.

Lemma filter_const {A} (b : bool) (l : list A) :
  filter (fun _ => b) l = if b then l else [].
Proof.
  destruct b; induction l as [|x l IH]; simpl; congruence.
Qed.

Lemma len_nonneg {A} (l : list A) : 0 <= len l.
Proof. unfold len. lia. Qed.

Lemma len_nil_iff {A} (l : list A) : len l = 0 <-> l = [].
Proof.
  unfold len. destruct l; simpl; split; try reflexivity; discriminate.
Qed.

Lemma is_empty_true {A} (l : list A) : is_empty l = true <-> l = [].
Proof. destruct l; simpl; split; congruence. Qed.

Lemma is_empty_false {A} (l : list A) : is_empty l = false <-> l <> [].
Proof. destruct l; simpl; split; congruence. Qed.

Lemma lstrip_split (s : pystr) :
  exists p, s = p ++ lstrip s /\ forallb isspace p = true.
Proof.
  induction s as [|c s [p [Hs Hp]]]; simpl.
  - exists []. auto.
  - destruct (isspace c) eqn:Hc.
    + exists (c :: p). simpl. rewrite Hc, Hp. split; [congruence|reflexivity].
    + exists []. auto.
Qed.

Lemma lstrip_head (s : pystr) (c : N) :
  hd_error (lstrip s) = Some c -> isspace c = false.
Proof.
  induction s as [|d s IH]; simpl; [discriminate|].
  destruct (isspace d) eqn:Hd; [exact IH|].
  simpl. intros H. now inversion H; subst.
Qed.

Lemma forallb_rev {A} (f : A -> bool) (l : list A) :
  forallb f (rev l) = forallb f l.
Proof.
  induction l as [|x l IH]; simpl; [reflexivity|].
  rewrite forallb_app, IH. simpl. rewrite andb_true_r. apply andb_comm.
Qed.

(** What [lstrip] leaves at the front is still there after [rstrip]. *)
Lemma rstrip_head (s : pystr) (c : N) :
  hd_error (rstrip s) = Some c -> hd_error s = Some c.
Proof.
  unfold rstrip. destruct (lstrip_split (rev s)) as [p [Hs _]].
  assert (E : s = rev (lstrip (rev s)) ++ rev p).
  { rewrite <- rev_app_distr, <- Hs. now rewrite rev_involutive. }
  destruct (rev (lstrip (rev s))) as [|d t]; simpl; [discriminate|].
  intros H. rewrite E. exact H.
Qed.

Lemma strip_split (s : pystr) :
  exists p q, s = p ++ strip s ++ q
              /\ forallb isspace p = true /\ forallb isspace q = true.
Proof.
  unfold strip, rstrip.
  destruct (lstrip_split s) as [p [Hs Hp]].
  destruct (lstrip_split (rev (lstrip s))) as [q [Ht Hq]].
  exists p, (rev q). repeat split; [|exact Hp|now rewrite forallb_rev].
  rewrite <- rev_app_distr, <- Ht, rev_involutive. exact Hs.
Qed.

Lemma strip_ends (s : pystr) (c : N) :
  hd_error (strip s) = Some c \/ hd_error (rev (strip s)) = Some c ->
  isspace c = false.
Proof.
  unfold strip. intros [H|H].
  - apply rstrip_head in H. now apply lstrip_head in H.
  - unfold rstrip in H. rewrite rev_involutive in H.
    now apply lstrip_head in H.
Qed.

Lemma replace_one (old new : N) (s : pystr) :
  replace old [new] s = map (fun c => if (c =? old)%N then new else c) s.
Proof.
  unfold replace. induction s as [|c s IH]; simpl; [reflexivity|].
  rewrite IH. now destruct (c =? old)%N.
Qed.

Lemma replace_app (old : N) (new a b : pystr) :
  replace old new (a ++ b) = replace old new a ++ replace old new b.
Proof. unfold replace. apply flat_map_app. Qed.

Lemma replace_run (old : N) (new : N) (n : nat) :
  replace old [new] (repeat old n) = repeat new n.
Proof.
  induction n as [|n IH]; simpl; [reflexivity|].
  unfold replace in *. simpl. rewrite N.eqb_refl, IH. reflexivity.
Qed.

Lemma plus_token : str "+" = [43%N].
Proof. reflexivity. Qed.

(** ** Recipe source adapter *)

Lemma no_credential_no_call (e : env) (ingredients : pystr) :
  getenv_truthy (SPOONACULAR_API_KEY e) = false ->
  _call_spoonacular_api e ingredients = [].
Proof.
  unfold getenv_truthy, _call_spoonacular_api.
  destruct (SPOONACULAR_API_KEY e) as [k|]; [|reflexivity].
  now intros ->.
Qed.

Lemma get_local_recipes_eq (ingredients : pystr) :
  get_local_recipes ingredients =
  if contains (str "яйца") (lower ingredients)
     && contains (str "молоко") (lower ingredients)
  then basic_recipes else [].
Proof. unfold get_local_recipes. apply filter_const. Qed.

(** C10: the local table lookup is all-or-nothing.  Both entries are kept
    or dropped by one and the same condition on the lower-cased text, so
    the result is the whole two-entry table or the empty list, and never a
    single entry. *)
Theorem local_lookup_all_or_nothing :
  forall ingredients : pystr,
    get_local_recipes ingredients =
      (if contains (str "яйца") (lower ingredients)
          && contains (str "молоко") (lower ingredients)
       then basic_recipes else [])
    /\ (get_local_recipes ingredients = basic_recipes
        \/ get_local_recipes ingredients = [])
    /\ List.length basic_recipes = 2%nat
    /\ List.length (get_local_recipes ingredients) <> 1%nat.
Proof.
  intros s. rewrite get_local_recipes_eq.
  destruct (contains _ _ && contains _ _); simpl;
    repeat split; auto; discriminate.
Qed.

(** C1 (amended): without a credential (unset or empty) [search_recipes]
    returns exactly the local-fallback result: the empty list unless the
    lower-cased text contains both "яйца" and "молоко", and then the
    two-entry table; so does the text "яйца, молоко", which lower-casing
    leaves as it is. *)
Theorem search_without_credential :
  forall (e : env) (ingredients : pystr),
    getenv_truthy (SPOONACULAR_API_KEY e) = false ->
    search_recipes e ingredients = get_local_recipes ingredients
    /\ search_recipes e ingredients =
         (if contains (str "яйца") (lower ingredients)
             && contains (str "молоко") (lower ingredients)
          then basic_recipes else [])
    /\ List.length basic_recipes = 2%nat
    /\ (lower (str "яйца, молоко") = str "яйца, молоко" ->
        search_recipes e (str "яйца, молоко") = basic_recipes).
Proof.
  intros e s Hkey.
  assert (E : forall t, search_recipes e t = get_local_recipes t).
  { intros t. unfold search_recipes.
    now rewrite (no_credential_no_call e t Hkey). }
  repeat split.
  - apply E.
  - rewrite E. apply get_local_recipes_eq.
  - intros Hl. rewrite E, get_local_recipes_eq, Hl. reflexivity.
Qed.

(** C2 (amended): with a credential, when the remote call raises a
    transport error, answers 402 or any other status from 400 to 599, or
    answers with a body that does not parse, [_call_spoonacular_api]
    returns the empty list and [search_recipes] returns the local-fallback
    result. *)
Theorem remote_failure_falls_back :
  forall (e : env) (ingredients api_key : pystr),
    SPOONACULAR_API_KEY e = Some api_key ->
    truthy api_key = true ->
    (findByIngredients e (params api_key ingredients) = Transport_error
     \/ (exists status_code json,
           findByIngredients e (params api_key ingredients)
             = Response status_code json
           /\ (status_code = 402 \/ 400 <= status_code < 600))
     \/ (exists status_code,
           findByIngredients e (params api_key ingredients)
             = Response status_code None)) ->
    _call_spoonacular_api e ingredients = []
    /\ search_recipes e ingredients = get_local_recipes ingredients.
Proof.
  intros e s k Hk Ht Hfail.
  assert (E : _call_spoonacular_api e s = []).
  { unfold _call_spoonacular_api. rewrite Hk, Ht. simpl.
    destruct Hfail as [-> | [(st & j & -> & Hst) | (st & ->)]].
    - reflexivity.
    - destruct (st =? 402) eqn:E402; [reflexivity|].
      unfold raise_for_status.
      replace ((400 <=? st) && (st <? 600)) with true; [reflexivity|].
      symmetry. apply andb_true_iff. split; [apply Z.leb_le|apply Z.ltb_lt]; lia.
    - destruct (st =? 402); [reflexivity|].
      now destruct (raise_for_status st). }
  split; [exact E|].
  unfold search_recipes. now rewrite E.
Qed.

Lemma basic_recipes_counts : Forall counts_non_negative basic_recipes.
Proof. repeat constructor; simpl; lia. Qed.

(** C9 (amended): with a credential, when the remote service answers with a
    status that is not an error and a body that parses to the list [l], the
    request asked for 10 items, and [search_recipes] returns [l] itself when
    it is non-empty and the local-fallback result otherwise; the result
    then has at most 10 items with non-negative counts whenever [l] does. *)
Theorem search_with_remote_success :
  forall (e : env) (ingredients api_key : pystr) (status_code : Z)
         (l : list Recipe),
    SPOONACULAR_API_KEY e = Some api_key ->
    truthy api_key = true ->
    findByIngredients e (params api_key ingredients)
      = Response status_code (Some l) ->
    status_code <> 402 ->
    raise_for_status status_code = false ->
    number (params api_key ingredients) = 10
    /\ search_recipes e ingredients =
         (if is_empty l then get_local_recipes ingredients else l)
    /\ (len l <= 10 -> Forall counts_non_negative l ->
        len (search_recipes e ingredients) <= 10
        /\ Forall counts_non_negative (search_recipes e ingredients)).
Proof.
  intros e s k st l Hk Ht Hresp H402 Hst.
  assert (E : _call_spoonacular_api e s = l).
  { unfold _call_spoonacular_api. rewrite Hk, Ht, Hresp. simpl.
    apply Z.eqb_neq in H402. now rewrite H402, Hst. }
  assert (S : search_recipes e s = if is_empty l then get_local_recipes s else l).
  { unfold search_recipes. rewrite E. now destruct l. }
  repeat split; try exact S.
  - rewrite S. destruct l; [|assumption].
    simpl. rewrite get_local_recipes_eq.
    destruct (contains _ _ && contains _ _); unfold len; simpl; lia.
  - rewrite S. destruct l; [|assumption].
    simpl. rewrite get_local_recipes_eq.
    destruct (contains _ _ && contains _ _);
      [apply basic_recipes_counts|constructor].
Qed.

(** C7 (amended): the ingredient text of the request is the input without
    its leading and trailing whitespace, with every space character
    replaced by one "+", then lower-cased; a run of [n] spaces inside
    becomes [n] join tokens. *)
Theorem ingredients_of_request :
  forall (api_key ingredients : pystr),
    (exists p q,
        ingredients = p ++ strip ingredients ++ q
        /\ forallb isspace p = true /\ forallb isspace q = true)
    /\ (forall c,
          hd_error (strip ingredients) = Some c
          \/ hd_error (rev (strip ingredients)) = Some c ->
          isspace c = false)
    /\ ingredients_param (params api_key ingredients) =
         lower (map (fun c => if (c =? 32)%N then 43%N else c)
                    (strip ingredients))
    /\ (forall (a b : pystr) (n : nat),
          strip ingredients = a ++ repeat 32%N n ++ b ->
          ingredients_param (params api_key ingredients) =
            lower (replace 32 (str "+") a ++ repeat 43%N n
                   ++ replace 32 (str "+") b)).
Proof.
  intros k s. split; [apply strip_split|].
  split; [apply strip_ends|].
  simpl. unfold ingredients_cleaned. rewrite plus_token. split.
  - now rewrite replace_one.
  - intros a b n ->. now rewrite !replace_app, replace_run.
Qed.

(** ** Favorites store *)

Lemma is_favorite_add (r : Recipe) (uid : Z) (t : favorites_table) :
  is_favorite (id r) uid (add_favorite r uid t) = true.
Proof.
  unfold is_favorite, add_favorite. rewrite existsb_app. simpl.
  unfold matches at 2. simpl. rewrite !Z.eqb_refl. simpl.
  apply orb_true_r.
Qed.

Lemma is_favorite_remove (rid uid : Z) (t : favorites_table) :
  is_favorite rid uid (remove_favorite rid uid t) = false.
Proof.
  unfold is_favorite, remove_favorite.
  induction t as [|r t IH]; simpl; [reflexivity|].
  destruct (matches rid uid r) eqn:Hm; simpl; [exact IH|].
  now rewrite Hm, IH.
Qed.

Lemma remove_favorite_absent (rid uid : Z) (t : favorites_table) :
  is_favorite rid uid t = false -> remove_favorite rid uid t = t.
Proof.
  unfold is_favorite, remove_favorite.
  induction t as [|r t IH]; simpl; [reflexivity|].
  intros H. apply orb_false_iff in H. destruct H as [Hm Ht].
  rewrite Hm. simpl. now rewrite IH.
Qed.

Lemma remove_favorite_rows (rid uid : Z) (t : favorites_table) (r : favorite_row) :
  In r (remove_favorite rid uid t)
  <-> In r t /\ ~ (recipe_id r = rid /\ user_id r = uid).
Proof.
  unfold remove_favorite. rewrite filter_In. unfold matches.
  rewrite negb_true_iff, andb_false_iff, !Z.eqb_neq. intuition.
  destruct (Z.eq_dec (recipe_id r) rid); [right|left]; intuition.
Qed.

(** C3: after [add_favorite] of a recipe for a user, [is_favorite] holds for
    its id and that user; after [remove_favorite], it does not.
    [remove_favorite] drops exactly the rows of that (user, recipe) pair and
    changes nothing when there is none. *)
Theorem favorite_round_trip :
  forall (r : Recipe) (rid uid : Z) (t : favorites_table),
    is_favorite (id r) uid (add_favorite r uid t) = true
    /\ is_favorite (id r) uid (remove_favorite (id r) uid (add_favorite r uid t)) = false
    /\ is_favorite rid uid (remove_favorite rid uid t) = false
    /\ (forall row, In row (remove_favorite rid uid t)
                    <-> In row t /\ ~ (recipe_id row = rid /\ user_id row = uid))
    /\ (is_favorite rid uid t = false -> remove_favorite rid uid t = t).
Proof.
  intros r rid uid t.
  split; [apply is_favorite_add|].
  split; [apply is_favorite_remove|].
  split; [apply is_favorite_remove|].
  split; [intros row; apply remove_favorite_rows|].
  apply remove_favorite_absent.
Qed.

(** ** Running the handlers *)

Ltac run :=
  cbv [bind get ret raise modify emit send retract message_reply_text
       try_except];
  cbn [fst snd ud db environ sent next_message_id set_ud set_db set_environ
       recipes current_recipe_index last_photo_message_id favorites
       current_favorite_index last_fav_photo_message_id
       set_recipes set_current_recipe_index set_last_photo_message_id
       set_favorites set_current_favorite_index
       set_last_fav_photo_message_id].

Ltac simple_scrutinee x :=
  lazymatch x with
  | context [if _ then _ else _] => fail
  | context [match _ with _ => _ end] => fail
  | context [show_recipe] => fail
  | context [show_favorite_recipe] => fail
  | _ => idtac
  end.

(** Case analysis on the innermost test the goal is stuck on. *)
Ltac branch :=
  match goal with
  | |- context [if ?b then _ else _] => simple_scrutinee b; destruct b eqn:?
  | |- context [match ?x with _ => _ end] => simple_scrutinee x; destruct x eqn:?
  end; run.

Lemma same_session_refl (w : world) : same_session w w.
Proof. repeat split. Qed.

Lemma show_recipe_frame (update : Update) (w : world) :
  same_session w (snd (show_recipe update w)).
Proof.
  unfold show_recipe, same_session. run.
  repeat branch; repeat split.
Qed.

Lemma show_favorite_recipe_frame (update : Update) (w : world) :
  same_session w (snd (show_favorite_recipe update w)).
Proof.
  unfold show_favorite_recipe, same_session. run.
  repeat branch; repeat split.
Qed.

Lemma getitem_in_range {A} (l : list A) (i : Z) :
  0 <= i < len l -> exists x, getitem l i = Some x.
Proof.
  intros H. unfold getitem.
  replace ((0 <=? i) && (i <? len l)) with true.
  - destruct (nth_error l (Z.to_nat i)) as [x|] eqn:E; [now exists x|].
    apply nth_error_None in E. unfold len in H. lia.
  - symmetry. apply andb_true_iff. split; [apply Z.leb_le|apply Z.ltb_lt]; lia.
Qed.

Lemma show_recipe_returns (update : Update) (w : world) :
  0 <= search_cursor w < len (search_items w) ->
  fst (show_recipe update w) = Ok None.
Proof.
  unfold search_cursor, search_items. intros H.
  destruct (getitem_in_range _ _ H) as [x Hx].
  unfold show_recipe. run.
  replace (is_empty _ || _) with false.
  - rewrite Hx. run. repeat branch; reflexivity.
  - symmetry. apply orb_false_iff. split.
    + apply is_empty_false. intros E. rewrite E in H. unfold len in H.
      simpl in H. lia.
    + apply Z.leb_gt. lia.
Qed.

Lemma show_favorite_recipe_returns (update : Update) (w : world) :
  0 <= favorite_cursor w < len (favorite_items w) ->
  fst (show_favorite_recipe update w) = Ok None.
Proof.
  unfold favorite_cursor, favorite_items. intros H.
  destruct (getitem_in_range _ _ H) as [x Hx].
  unfold show_favorite_recipe. run.
  replace (is_empty _ || _) with false.
  - rewrite Hx. run. repeat branch; reflexivity.
  - symmetry. apply orb_false_iff. split.
    + apply is_empty_false. intros E. rewrite E in H. unfold len in H.
      simpl in H. lia.
    + apply Z.leb_gt. lia.
Qed.

(** A call of a renderer, replaced by what it is known to leave alone. *)
Ltac call_show :=
  match goal with
  | |- context [show_recipe ?u ?w] =>
      let F := fresh "F" in
      pose proof (show_recipe_frame u w) as F;
      destruct (show_recipe u w) as [[?|?] ?]
  | |- context [show_favorite_recipe ?u ?w] =>
      let F := fresh "F" in
      pose proof (show_favorite_recipe_frame u w) as F;
      destruct (show_favorite_recipe u w) as [[?|?] ?]
  end;
  unfold same_session in *; run;
  repeat match goal with
         | H : _ |- _ => progress cbn [fst snd ud db environ sent
             next_message_id set_ud set_db recipes current_recipe_index
             last_photo_message_id favorites current_favorite_index
             last_fav_photo_message_id set_recipes set_current_recipe_index
             set_last_photo_message_id set_favorites
             set_current_favorite_index set_last_fav_photo_message_id] in H
         end.

Ltac bool_facts :=
  repeat match goal with
         | H : _ && _ = true |- _ => apply andb_true_iff in H; destruct H
         | H : (_ <? _) = true |- _ => apply Z.ltb_lt in H
         | H : (_ <? _) = false |- _ => apply Z.ltb_ge in H
         | H : (_ <=? _) = true |- _ => apply Z.leb_le in H
         | H : (_ <=? _) = false |- _ => apply Z.leb_gt in H
         | H : is_empty _ = true |- _ => apply is_empty_true in H
         | H : is_empty _ = false |- _ => apply is_empty_false in H
         end.

Ltac invariant_case :=
  unfold same_session in *;
  repeat match goal with
         | H : _ /\ _ |- _ => destruct H
         end;
  repeat match goal with
         | H : recipes (ud _) = _ |- _ => rewrite H; clear H
         | H : current_recipe_index (ud _) = _ |- _ => rewrite H; clear H
         | H : favorites (ud _) = _ |- _ => rewrite H; clear H
         | H : current_favorite_index (ud _) = _ |- _ => rewrite H; clear H
         end;
  cbn [get_or]; bool_facts;
  split; intros;
  repeat match goal with
         | H : ?P -> _, H' : ?P |- _ =>
             match type of P with Prop => specialize (H H') end
         end;
  try tauto; try lia.

Lemma recipe_navigation_invariant (query : CallbackQuery) (w : world) :
  session_invariant w ->
  session_invariant (snd (handle_recipe_navigation query w)).
Proof.
  unfold session_invariant, cursor_in_bounds, search_cursor, search_items,
    favorite_cursor, favorite_items.
  intros [Hs Hf]. unfold handle_recipe_navigation, action_id. run.
  repeat (branch || call_show); invariant_case.
Qed.

Lemma filter_length_le {A} (f : A -> bool) (l : list A) :
  len (filter f l) <= len l.
Proof. unfold len. pose proof (filter_length_le f l). lia. Qed.

Lemma filter_nonempty {A} (f : A -> bool) (l : list A) :
  filter f l <> [] -> l <> [].
Proof. intros H E. subst. now apply H. Qed.

Lemma len_pos {A} (l : list A) : l <> [] -> 0 < len l.
Proof. destruct l; [congruence|]. unfold len. simpl. lia. Qed.

Lemma favorites_navigation_invariant (query : CallbackQuery) (w : world) :
  session_invariant w ->
  session_invariant (snd (handle_favorites_navigation query w)).
Proof.
  unfold session_invariant, cursor_in_bounds, search_cursor, search_items,
    favorite_cursor, favorite_items.
  intros [Hs Hf]. unfold handle_favorites_navigation, action_id. run.
  repeat (branch || call_show);
    bool_facts;
    try match goal with
        | H : filter ?f ?l <> [] |- _ =>
            pose proof (filter_nonempty f l H);
            pose proof (len_pos _ H)
        end;
    invariant_case.
Qed.

Lemma process_search_invariant (update : Update) (ingredients : pystr)
    (w : world) :
  session_invariant w ->
  session_invariant (snd (process_search update ingredients w)).
Proof.
  unfold session_invariant, cursor_in_bounds, search_cursor, search_items,
    favorite_cursor, favorite_items.
  intros [Hs Hf]. unfold process_search. run.
  repeat (branch || call_show);
    bool_facts;
    try match goal with
        | H : ?l <> [] |- _ => pose proof (len_pos _ H)
        end;
    invariant_case.
Qed.

Lemma show_favorites_invariant (update : Update) (w : world) :
  session_invariant w ->
  session_invariant (snd (show_favorites update w)).
Proof.
  unfold session_invariant, cursor_in_bounds, search_cursor, search_items,
    favorite_cursor, favorite_items.
  intros [Hs Hf]. unfold show_favorites. run.
  repeat (branch || call_show);
    bool_facts;
    try match goal with
        | H : ?l <> [] |- _ => pose proof (len_pos _ H)
        end;
    invariant_case.
Qed.

Lemma reachable_invariant (w : world) : reachable w -> session_invariant w.
Proof.
  induction 1 as [w E| | | | |].
  - unfold session_invariant, cursor_in_bounds, search_items, favorite_items.
    rewrite E. simpl. split; congruence.
  - now apply process_search_invariant.
  - now apply recipe_navigation_invariant.
  - now apply show_favorites_invariant.
  - now apply favorites_navigation_invariant.
  - assumption.
Qed.

Ltac items_case :=
  unfold same_session in *;
  repeat match goal with
         | H : _ /\ _ |- _ => destruct H
         end;
  repeat match goal with
         | H : recipes (ud _) = _ |- _ => rewrite H; clear H
         | H : current_recipe_index (ud _) = _ |- _ => rewrite H; clear H
         | H : favorites (ud _) = _ |- _ => rewrite H; clear H
         | H : current_favorite_index (ud _) = _ |- _ => rewrite H; clear H
         end;
  run; cbn [get_or fst snd]; bool_facts.

Lemma process_search_start (update : Update) (ingredients : pystr) (w : world) :
  fst (process_search update ingredients w) = Ok (Some SEARCH) ->
  search_cursor (snd (process_search update ingredients w)) = 0
  /\ search_items (snd (process_search update ingredients w)) <> [].
Proof.
  unfold search_cursor, search_items, process_search. run.
  repeat (branch || call_show); items_case;
    try discriminate; intros _; split; [reflexivity|assumption].
Qed.

Lemma show_favorites_start (update : Update) (w : world) :
  fst (show_favorites update w) = Ok (Some FAVORITES) ->
  favorite_cursor (snd (show_favorites update w)) = 0
  /\ favorite_items (snd (show_favorites update w)) <> []
  /\ favorite_items (snd (show_favorites update w))
     = get_favorites (effective_user update) (db w)
  /\ db (snd (show_favorites update w)) = db w.
Proof.
  unfold favorite_cursor, favorite_items, show_favorites. run.
  repeat (branch || call_show); items_case;
    try discriminate; intros _; repeat split; assumption.
Qed.

Lemma recipe_navigation_items (query : CallbackQuery) (w : world) :
  search_items (snd (handle_recipe_navigation query w)) = search_items w.
Proof.
  unfold search_items, handle_recipe_navigation, action_id. run.
  repeat (branch || call_show); items_case; reflexivity.
Qed.

Lemma favorites_exhausted_ends (query : CallbackQuery) (w : world) :
  favorite_items w <> [] ->
  favorite_items (snd (handle_favorites_navigation query w)) = [] ->
  fst (handle_favorites_navigation query w) = Ok (Some END).
Proof.
  unfold favorite_items, handle_favorites_navigation, action_id. run.
  repeat (branch || call_show); items_case;
    intros; try reflexivity; congruence.
Qed.

(** C5: in every state the handlers can reach, from empty user data and
    through any sequence of updates, the cursor of each mode is within its
    non-empty item list.  A session starts at cursor 0 on a non-empty list,
    every button press keeps the bounds, the search list never changes, and
    a press that empties the favorites list ends the session. *)
Theorem cursor_stays_in_bounds :
  (forall w, reachable w ->
     (search_items w <> [] -> 0 <= search_cursor w < len (search_items w))
     /\ (favorite_items w <> [] ->
         0 <= favorite_cursor w < len (favorite_items w)))
  /\ (forall update ingredients w,
        fst (process_search update ingredients w) = Ok (Some SEARCH) ->
        search_cursor (snd (process_search update ingredients w)) = 0
        /\ search_items (snd (process_search update ingredients w)) <> [])
  /\ (forall update w,
        fst (show_favorites update w) = Ok (Some FAVORITES) ->
        favorite_cursor (snd (show_favorites update w)) = 0
        /\ favorite_items (snd (show_favorites update w)) <> [])
  /\ (forall query w,
        session_invariant w ->
        session_invariant (snd (handle_recipe_navigation query w))
        /\ session_invariant (snd (handle_favorites_navigation query w)))
  /\ (forall query w,
        search_items (snd (handle_recipe_navigation query w)) = search_items w)
  /\ (forall query w,
        favorite_items w <> [] ->
        favorite_items (snd (handle_favorites_navigation query w)) = [] ->
        fst (handle_favorites_navigation query w) = Ok (Some END)).
Proof.
  split; [exact reachable_invariant|].
  split; [exact process_search_start|].
  split; [intros u w H; split; now apply show_favorites_start|].
  split; [intros q w H; split;
          [now apply recipe_navigation_invariant
          |now apply favorites_navigation_invariant]|].
  split; [exact recipe_navigation_items|exact favorites_exhausted_ends].
Qed.

Lemma show_recipe_run (update : Update) (w : world) :
  0 <= search_cursor w < len (search_items w) ->
  exists w', show_recipe update w = (Ok None, w') /\ same_session w w'.
Proof.
  intros H. exists (snd (show_recipe update w)). split.
  - rewrite <- (show_recipe_returns update w H). apply surjective_pairing.
  - apply show_recipe_frame.
Qed.

Lemma show_favorite_recipe_run (update : Update) (w : world) :
  0 <= favorite_cursor w < len (favorite_items w) ->
  exists w', show_favorite_recipe update w = (Ok None, w')
             /\ same_session w w'.
Proof.
  intros H. exists (snd (show_favorite_recipe update w)). split.
  - rewrite <- (show_favorite_recipe_returns update w H).
    apply surjective_pairing.
  - apply show_favorite_recipe_frame.
Qed.

(** A call of a renderer on an in-bounds cursor, replaced by its result. *)
Ltac show_runs :=
  match goal with
  | |- context [show_recipe ?u ?w] =>
      let E := fresh "E" in
      let F := fresh "F" in
      destruct (show_recipe_run u w) as (? & E & F);
      [unfold search_cursor, search_items; run | rewrite E; run]
  | |- context [show_favorite_recipe ?u ?w] =>
      let E := fresh "E" in
      let F := fresh "F" in
      destruct (show_favorite_recipe_run u w) as (? & E & F);
      [unfold favorite_cursor, favorite_items; run | rewrite E; run]
  end.

(** Tests between literals are decided by evaluation. *)
Ltac eval_tests :=
  repeat match goal with
         | |- context [str_eqb (str ?a) (str ?b)] =>
             let v := eval vm_compute in (str_eqb (str a) (str b)) in
             change (str_eqb (str a) (str b)) with v
         | |- context [startswith (str ?a) (str ?b)] =>
             let v := eval vm_compute in (startswith (str a) (str b)) in
             change (startswith (str a) (str b)) with v
         end;
  cbn [andb orb].

(** C4: at the first item a "previous" press, and at the last item a "next"
    press, returns normally and leaves the cursor and the items as they
    were; this holds in search mode and in favorites mode. *)
Theorem navigation_clamped_at_boundaries :
  forall (query : CallbackQuery) (w : world),
    (data query = str "prev" ->
     search_items w <> [] -> search_cursor w = 0 ->
     fst (handle_recipe_navigation query w) = Ok None
     /\ search_cursor (snd (handle_recipe_navigation query w)) = 0
     /\ search_items (snd (handle_recipe_navigation query w)) = search_items w)
    /\ (data query = str "next" ->
        search_items w <> [] -> search_cursor w = len (search_items w) - 1 ->
        fst (handle_recipe_navigation query w) = Ok None
        /\ search_cursor (snd (handle_recipe_navigation query w))
           = len (search_items w) - 1
        /\ search_items (snd (handle_recipe_navigation query w))
           = search_items w)
    /\ (data query = str "fav_prev" ->
        favorite_items w <> [] -> favorite_cursor w = 0 ->
        fst (handle_favorites_navigation query w) = Ok None
        /\ favorite_cursor (snd (handle_favorites_navigation query w)) = 0
        /\ favorite_items (snd (handle_favorites_navigation query w))
           = favorite_items w)
    /\ (data query = str "fav_next" ->
        favorite_items w <> [] ->
        favorite_cursor w = len (favorite_items w) - 1 ->
        fst (handle_favorites_navigation query w) = Ok None
        /\ favorite_cursor (snd (handle_favorites_navigation query w))
           = len (favorite_items w) - 1
        /\ favorite_items (snd (handle_favorites_navigation query w))
           = favorite_items w).
Proof.
  intros q w. split; [|split; [|split]].
  all: intros Hd Hne Hc; pose proof (len_pos _ Hne) as Hpos.
  1-2: unfold handle_recipe_navigation.
  3-4: unfold handle_favorites_navigation.
  all: run; rewrite Hd; eval_tests.
  all: unfold search_cursor, search_items, favorite_cursor, favorite_items in *.
  all: rewrite Hc; rewrite ?Z.ltb_irrefl; cbn [andb].
  all: show_runs; [rewrite ?Hc; lia|].
  all: items_case; rewrite ?Hc; repeat split.
Qed.

Lemma startswith_excludes (s p lit : pystr) :
  startswith s p = true -> startswith lit p = false -> str_eqb s lit = false.
Proof.
  intros Hs Hl. destruct (str_eqb s lit) eqn:E; [|reflexivity].
  apply str_eqb_eq in E. subst. congruence.
Qed.

Lemma find_id (rid : Z) (l : list Recipe) (r : Recipe) :
  find (fun r => id r =? rid) l = Some r -> id r = rid.
Proof. intros H. apply find_some in H. now apply Z.eqb_eq. Qed.

(** The keyboards as the user sees them: every label and every callback
    data, the position counted from 1. *)
Lemma recipe_keyboard_shown (is_fav : bool) (recipe : Recipe)
    (current_index total_recipes : Z) :
  recipe_keyboard is_fav recipe current_index total_recipes =
  [ [ {| text := if is_fav then str "В избранном"
                 else str "Добавить в избранное";
         callback_data := str "fav_" ++ str_of_int (id recipe) |} ];
    [ {| text := str "Назад"; callback_data := str "prev" |};
      {| text := str_of_int (current_index + 1) ++ str "/"
                 ++ str_of_int total_recipes;
         callback_data := str "count" |};
      {| text := str "Далее"; callback_data := str "next" |} ];
    [ {| text := str "Закончить"; callback_data := str "done" |} ] ].
Proof. reflexivity. Qed.

Lemma favorite_keyboard_shown (recipe : Recipe) (current_index total : Z) :
  favorite_keyboard recipe current_index total =
  [ [ {| text := str "Удалить";
         callback_data := str "remove_" ++ str_of_int (id recipe) |} ];
    [ {| text := str "Назад"; callback_data := str "fav_prev" |};
      {| text := str_of_int (current_index + 1) ++ str "/"
                 ++ str_of_int total;
         callback_data := str "fav_count" |};
      {| text := str "Далее"; callback_data := str "fav_next" |} ];
    [ {| text := str "Закончить"; callback_data := str "fav_done" |} ] ].
Proof. reflexivity. Qed.

Lemma favorite_labels_differ :
  str "В избранном" <> str "Добавить в избранное".
Proof. vm_compute. discriminate. Qed.

(** C8: a press of the favorite button of a listed recipe returns normally;
    it removes the recipe from the user's favorites when [is_favorite] held
    and adds it otherwise.  Besides the acknowledgement, the only call on
    the transport is the edit of the pressed message's keyboard: its first
    button now reads "В избранном" after an addition and "Добавить в
    избранное" after a removal (two different labels), and its other
    buttons and the position shown are those of the unchanged cursor and
    items.  The user data is unchanged and no message is sent. *)
Theorem toggle_favorite_frame :
  forall (query : CallbackQuery) (w : world) (part : pystr) (rid : Z)
         (recipe : Recipe),
    startswith (data query) (str "fav_") = true ->
    getitem (split 95 (data query)) 1 = Some part ->
    py_int part = Some rid ->
    find (fun r => id r =? rid) (search_items w) = Some recipe ->
    let uid := from_user query in
    let was_fav := is_favorite rid uid (db w) in
    let w' := snd (handle_recipe_navigation query w) in
    fst (handle_recipe_navigation query w) = Ok None
    /\ db w' = (if was_fav then remove_favorite rid uid (db w)
                else add_favorite recipe uid (db w))
    /\ is_favorite rid uid (db w') = negb was_fav
    /\ sent w' = sent w ++
         [answer;
          edit_message_reply_markup
            (Some
               [ [ {| text := if was_fav then str "Добавить в избранное"
                              else str "В избранном";
                      callback_data :=
                        str "fav_" ++ str_of_int (id recipe) |} ];
                 [ {| text := str "Назад"; callback_data := str "prev" |};
                   {| text := str_of_int (search_cursor w + 1) ++ str "/"
                              ++ str_of_int (len (search_items w));
                      callback_data := str "count" |};
                   {| text := str "Далее"; callback_data := str "next" |} ];
                 [ {| text := str "Закончить";
                      callback_data := str "done" |} ] ])]
    /\ str "В избранном" <> str "Добавить в избранное"
    /\ ud w' = ud w
    /\ search_cursor w' = search_cursor w
    /\ search_items w' = search_items w
    /\ next_message_id w' = next_message_id w.
Proof.
  intros q w part rid recipe Hsw Hpart Hint Hfind uid was_fav w'.
  pose proof (find_id _ _ _ Hfind) as Hid.
  pose proof favorite_labels_differ as Hlabels.
  subst w'. unfold handle_recipe_navigation, action_id,
    get_recipe_keyboard, search_cursor, search_items in *. run.
  rewrite (startswith_excludes _ _ (str "prev") Hsw eq_refl).
  rewrite (startswith_excludes _ _ (str "next") Hsw eq_refl).
  cbn [andb]. rewrite Hsw, Hpart, Hint. run. rewrite Hfind. run.
  rewrite Hid. fold uid. fold was_fav.
  destruct was_fav eqn:Hwas; run.
  - assert (E : is_favorite rid uid (remove_favorite rid uid (db w)) = false)
      by apply is_favorite_remove.
    rewrite E, recipe_keyboard_shown, ?Hid, <- app_assoc. repeat split.
    exact Hlabels.
  - assert (E : is_favorite rid uid (add_favorite recipe uid (db w)) = true)
      by (rewrite <- Hid; apply is_favorite_add).
    rewrite E, recipe_keyboard_shown, ?Hid, <- app_assoc. repeat split.
    exact Hlabels.
Qed.

Lemma get_favorites_remove (rid uid : Z) (t : favorites_table) :
  get_favorites uid (remove_favorite rid uid t)
  = filter (fun f => negb (id f =? rid)) (get_favorites uid t).
Proof.
  unfold get_favorites, remove_favorite, matches.
  induction t as [|r t IH]; simpl; [reflexivity|].
  destruct (user_id r =? uid) eqn:Hu, (recipe_id r =? rid) eqn:Hr;
    simpl; rewrite ?Hu, ?Hr; simpl; rewrite ?Hr; simpl; now rewrite IH.
Qed.

Lemma get_favorites_empty (uid : Z) (t : favorites_table) :
  get_favorites uid t = [] <-> forall r, In r t -> user_id r <> uid.
Proof.
  unfold get_favorites. split.
  - intros H r Hin Hu. apply map_eq_nil in H.
    assert (In r (filter (fun r => user_id r =? uid) t)) as Hf
      by (apply filter_In; split; [assumption|now apply Z.eqb_eq]).
    rewrite H in Hf. exact Hf.
  - intros H. induction t as [|r t IH]; simpl; [reflexivity|].
    destruct (user_id r =? uid) eqn:Hu.
    + apply Z.eqb_eq in Hu. exfalso. apply (H r); simpl; auto.
    + apply IH. intros r' Hin. apply H. now right.
Qed.

Lemma favorites_navigation_in_step (query : CallbackQuery) (w : world) :
  in_step (from_user query) w ->
  in_step (from_user query) (snd (handle_favorites_navigation query w)).
Proof.
  clear lower.
  unfold in_step, cursor_in_bounds, favorite_cursor, favorite_items.
  intros [Hsync Hf]. unfold handle_favorites_navigation, action_id. run.
  repeat (branch || call_show);
    bool_facts;
    try match goal with
        | H : filter ?f ?l <> [] |- _ =>
            pose proof (filter_nonempty f l H);
            pose proof (len_pos _ H)
        end;
    items_case;
    repeat match goal with
           | H : db _ = _ |- _ => rewrite H; clear H
           end;
    rewrite ?get_favorites_remove, <- ?Hsync;
    (split; [try reflexivity; try assumption|]);
    intros;
    repeat match goal with
           | H : ?P -> _, H' : ?P |- _ =>
               match type of P with Prop => specialize (H H') end
           end;
    try tauto; try lia.
Qed.

Lemma favorites_session_in_step (uid : Z) (w : world) :
  favorites_session uid w -> in_step uid w.
Proof.
  induction 1 as [w update w' Hu Hopen | w query r w' _ IH Hu Hstep _].
  - pose proof (show_favorites_start update w) as S.
    rewrite Hopen in S. cbn [fst snd] in S.
    destruct (S eq_refl) as (Hc & Hne & Hitems & Hdb).
    unfold in_step, cursor_in_bounds. rewrite Hitems, Hdb, Hu, Hc.
    split; [reflexivity|]. intros Hn.
    rewrite Hitems, Hu in Hne. pose proof (len_pos _ Hne). lia.
  - subst uid. pose proof (favorites_navigation_in_step query w IH) as S.
    now rewrite Hstep in S.
Qed.

Ltac state :=
  cbn [fst snd ud db environ sent next_message_id set_ud set_db
       recipes current_recipe_index last_photo_message_id favorites
       current_favorite_index last_fav_photo_message_id
       set_recipes set_current_recipe_index set_last_photo_message_id
       set_favorites set_current_favorite_index
       set_last_fav_photo_message_id get_or update_of_query
       effective_chat effective_user] in *.

(** A call of a renderer, replaced by what it leaves alone and by when it
    returns. *)
Ltac call_show_full :=
  match goal with
  | |- context [show_recipe ?u ?w1] =>
      let F := fresh "F" in
      let R := fresh "R" in
      pose proof (show_recipe_frame u w1) as F;
      pose proof (show_recipe_returns u w1) as R;
      unfold same_session, search_cursor, search_items in F, R;
      destruct (show_recipe u w1) as [[?|?] ?]; state;
      destruct F as (? & ? & ? & ? & ? & ?)
  | |- context [show_favorite_recipe ?u ?w1] =>
      let F := fresh "F" in
      let R := fresh "R" in
      pose proof (show_favorite_recipe_frame u w1) as F;
      pose proof (show_favorite_recipe_returns u w1) as R;
      unfold same_session, favorite_cursor, favorite_items in F, R;
      destruct (show_favorite_recipe u w1) as [[?|?] ?]; state;
      destruct F as (? & ? & ? & ? & ? & ?)
  end.

Ltac rewrite_state :=
  repeat match goal with
         | H : recipes (ud _) = _ |- _ => rewrite H; clear H
         | H : current_recipe_index (ud _) = _ |- _ => rewrite H; clear H
         | H : favorites (ud _) = _ |- _ => rewrite H; clear H
         | H : current_favorite_index (ud _) = _ |- _ => rewrite H; clear H
         | H : db _ = _ |- _ => rewrite H; clear H
         | H : sent _ = _ |- _ => rewrite H; clear H
         end.

(** C6 (amended): a remove press deletes the recipe's rows of the user from
    the store and its entries from the items.  When no item is left the
    handler reports that no favorites remain and returns [END]; otherwise,
    the cursor being within the items, it returns normally with the cursor
    at [min(cursor, len(items) - 1)].  The store then holds the user's
    former favorites without that recipe: none at all when the last item
    went and the items were still the user's stored favorites, which they
    are as long as only the session's own presses have been handled since
    [show_favorites] opened it. *)
Theorem remove_in_favorites_mode :
  forall (query : CallbackQuery) (w : world) (part : pystr) (rid : Z),
    startswith (data query) (str "remove_") = true ->
    getitem (split 95 (data query)) 1 = Some part ->
    py_int part = Some rid ->
    let uid := from_user query in
    let items' := filter (fun f => negb (id f =? rid)) (favorite_items w) in
    let w' := snd (handle_favorites_navigation query w) in
    db w' = remove_favorite rid uid (db w)
    /\ is_favorite rid uid (db w') = false
    /\ get_favorites uid (db w')
       = filter (fun f => negb (id f =? rid)) (get_favorites uid (db w))
    /\ favorite_items w' = items'
    /\ (forall f, In f (favorite_items w') -> id f <> rid)
    /\ (items' = [] ->
        fst (handle_favorites_navigation query w) = Ok (Some END)
        /\ sent w' = sent w ++
             [answer;
              reply_text (str "Рецепт удален. Избранных рецептов больше нет.")])
    /\ (items' <> [] ->
        0 <= favorite_cursor w < len (favorite_items w) ->
        fst (handle_favorites_navigation query w) = Ok None
        /\ favorite_cursor w' = Z.min (favorite_cursor w) (len items' - 1))
    /\ (favorite_items w = get_favorites uid (db w) ->
        favorite_items w' = get_favorites uid (db w')
        /\ (items' = [] -> get_favorites uid (db w') = []))
    /\ (favorites_session uid w ->
        favorite_items w = get_favorites uid (db w)
        /\ (favorite_items w <> [] ->
            0 <= favorite_cursor w < len (favorite_items w))).
Proof.
  intros q w part rid Hsw Hpart Hint uid items' w'.
  assert (Hin : forall f, In f items' -> id f <> rid).
  { intros f Hf. apply filter_In in Hf. destruct Hf as [_ Hf].
    apply negb_true_iff in Hf. now apply Z.eqb_neq. }
  assert (Hsession : favorites_session uid w ->
            favorite_items w = get_favorites uid (db w)
            /\ (favorite_items w <> [] ->
                0 <= favorite_cursor w < len (favorite_items w))).
  { intros S. exact (favorites_session_in_step uid w S). }
  assert (Hsync : favorite_items w = get_favorites uid (db w) ->
            get_favorites uid (remove_favorite rid uid (db w)) = items').
  { intros E. rewrite get_favorites_remove, <- E. reflexivity. }
  subst w'. unfold handle_favorites_navigation, action_id,
    favorite_cursor, favorite_items in *. run.
  rewrite (startswith_excludes _ _ (str "fav_prev") Hsw eq_refl).
  rewrite (startswith_excludes _ _ (str "fav_next") Hsw eq_refl).
  cbn [andb]. rewrite Hsw, Hpart, Hint. run. fold uid. fold items'.
  pose proof (filter_length_le (fun f => negb (id f =? rid))
                (get_or (favorites (ud w)) [])) as Hle.
  fold items' in Hle.
  destruct (is_empty items') eqn:Hempty; run.
  - apply is_empty_true in Hempty.
    split; [reflexivity|].
    split; [apply is_favorite_remove|].
    split; [apply get_favorites_remove|].
    split; [reflexivity|].
    split; [exact Hin|].
    split; [intros _; split; [reflexivity|now rewrite <- app_assoc]|].
    split; [intros Hne; congruence|].
    split; [|exact Hsession].
    intros E. split; [symmetry; now apply Hsync|].
    intros _. rewrite (Hsync E). exact Hempty.
  - apply is_empty_false in Hempty.
    pose proof (len_pos _ Hempty) as Hpos.
    destruct (len items' <=? get_or (current_favorite_index (ud w)) 0)
      eqn:Hclamp; run; bool_facts; call_show_full; rewrite_state;
      cbn [get_or] in *;
      (split; [reflexivity|]);
      (split; [apply is_favorite_remove|]);
      (split; [apply get_favorites_remove|]);
      (split; [reflexivity|]);
      (split; [exact Hin|]);
      (split; [intros E; congruence|]);
      (split; [|split; [|exact Hsession]]);
      [intros _ Hb; split; [|lia]
      |intros E; split; [symmetry; now apply Hsync|intros E'; congruence]
      |intros _ Hb; split; [|lia]
      |intros E; split; [symmetry; now apply Hsync|intros E'; congruence]
      |intros _ Hb; split; [|lia]
      |intros E; split; [symmetry; now apply Hsync|intros E'; congruence]
      |intros _ Hb; split; [|lia]
      |intros E; split; [symmetry; now apply Hsync|intros E'; congruence]];
      try reflexivity; (rewrite <- R by lia); reflexivity.
Qed.

(** ** More on the favorites store *)

Lemma recipe_eta (r : Recipe) :
  {| id := id r; title := title r; image := image r;
     usedIngredientCount := usedIngredientCount r;
     missedIngredientCount := missedIngredientCount r |} = r.
Proof. now destruct r. Qed.

Lemma get_favorites_app (uid : Z) (t1 t2 : favorites_table) :
  get_favorites uid (t1 ++ t2) = get_favorites uid t1 ++ get_favorites uid t2.
Proof. unfold get_favorites. now rewrite filter_app, map_app. Qed.

Lemma get_favorites_add (r : Recipe) (uid : Z) (t : favorites_table) :
  get_favorites uid (add_favorite r uid t) = get_favorites uid t ++ [r].
Proof.
  unfold add_favorite. rewrite get_favorites_app. f_equal.
  unfold get_favorites. simpl. rewrite Z.eqb_refl. simpl.
  now rewrite recipe_eta.
Qed.

Lemma get_favorites_add_other (r : Recipe) (uid uid' : Z) (t : favorites_table) :
  uid <> uid' ->
  get_favorites uid' (add_favorite r uid t) = get_favorites uid' t.
Proof.
  intros H. unfold add_favorite. rewrite get_favorites_app.
  unfold get_favorites at 2. simpl.
  apply Z.eqb_neq in H. rewrite H. simpl. apply app_nil_r.
Qed.

Lemma get_favorites_remove_other (rid uid uid' : Z) (t : favorites_table) :
  uid <> uid' ->
  get_favorites uid' (remove_favorite rid uid t) = get_favorites uid' t.
Proof.
  intros H. unfold get_favorites, remove_favorite, matches. f_equal.
  induction t as [|r t IH]; simpl; [reflexivity|].
  destruct (user_id r =? uid') eqn:Hu'.
  - apply Z.eqb_eq in Hu'.
    assert (Hu : (user_id r =? uid) = false) by (apply Z.eqb_neq; congruence).
    rewrite Hu, andb_false_r. simpl.
    apply Z.eqb_eq in Hu'. now rewrite Hu', IH.
  - destruct (negb _); simpl; rewrite ?Hu'; exact IH.
Qed.

Lemma is_favorite_listed (rid uid : Z) (t : favorites_table) :
  is_favorite rid uid t = existsb (fun f => id f =? rid) (get_favorites uid t).
Proof.
  unfold is_favorite, get_favorites, matches.
  induction t as [|r t IH]; simpl; [reflexivity|].
  destruct (user_id r =? uid); simpl; rewrite IH.
  - now rewrite andb_true_r.
  - now rewrite andb_false_r.
Qed.

Lemma is_favorite_remove_other (rid uid rid' uid' : Z) (t : favorites_table) :
  rid' <> rid \/ uid' <> uid ->
  is_favorite rid' uid' (remove_favorite rid uid t) = is_favorite rid' uid' t.
Proof.
  intros H. unfold is_favorite, remove_favorite.
  induction t as [|r t IH]; simpl; [reflexivity|].
  destruct (matches rid uid r) eqn:Hm; simpl; rewrite IH; [|reflexivity].
  replace (matches rid' uid' r) with false; [reflexivity|].
  symmetry. unfold matches in *. apply andb_true_iff in Hm.
  destruct Hm as [H1 H2]. apply Z.eqb_eq in H1, H2.
  apply andb_false_iff. rewrite !Z.eqb_neq. destruct H; [left|right]; congruence.
Qed.

Lemma is_favorite_add_other (r : Recipe) (uid rid' uid' : Z)
    (t : favorites_table) :
  rid' <> id r \/ uid' <> uid ->
  is_favorite rid' uid' (add_favorite r uid t) = is_favorite rid' uid' t.
Proof.
  intros H. unfold is_favorite, add_favorite. rewrite existsb_app. simpl.
  unfold matches at 2. simpl.
  replace ((id r =? rid') && (uid =? uid')) with false;
    [now rewrite !orb_false_r|].
  symmetry. apply andb_false_iff. rewrite !Z.eqb_neq.
  destruct H; [left|right]; congruence.
Qed.

Lemma remove_after_add (r : Recipe) (uid : Z) (t : favorites_table) :
  is_favorite (id r) uid t = false ->
  remove_favorite (id r) uid (add_favorite r uid t) = t.
Proof.
  intros H. unfold add_favorite, remove_favorite. rewrite filter_app. simpl.
  unfold matches at 2. simpl. rewrite !Z.eqb_refl. simpl.
  rewrite app_nil_r. now apply remove_favorite_absent.
Qed.

(** X1: what [get_favorites] reads back after [add_favorite] is the user's
    former list followed by the very recipe that was stored; nothing is
    looked up or merged, so storing a recipe twice lists it twice. *)
Theorem favorites_read_back :
  forall (r : Recipe) (uid : Z) (t : favorites_table),
    get_favorites uid (add_favorite r uid t) = get_favorites uid t ++ [r]
    /\ get_favorites uid (add_favorite r uid (add_favorite r uid t))
       = get_favorites uid t ++ [r; r].
Proof.
  intros r uid t. split.
  - apply get_favorites_add.
  - rewrite !get_favorites_add, <- app_assoc. reflexivity.
Qed.

(** X2: [add_favorite] and [remove_favorite] touch one (user, recipe) pair
    only: [is_favorite] of any other pair is unchanged, and so is the list
    of any other user. *)
Theorem store_changes_one_pair :
  forall (r : Recipe) (rid uid rid' uid' : Z) (t : favorites_table),
    (rid' <> id r \/ uid' <> uid ->
     is_favorite rid' uid' (add_favorite r uid t) = is_favorite rid' uid' t)
    /\ (rid' <> rid \/ uid' <> uid ->
        is_favorite rid' uid' (remove_favorite rid uid t)
        = is_favorite rid' uid' t)
    /\ (uid <> uid' ->
        get_favorites uid' (add_favorite r uid t) = get_favorites uid' t
        /\ get_favorites uid' (remove_favorite rid uid t)
           = get_favorites uid' t).
Proof.
  intros r rid uid rid' uid' t.
  split; [apply is_favorite_add_other|].
  split; [apply is_favorite_remove_other|].
  intros H. split.
  - now apply get_favorites_add_other.
  - now apply get_favorites_remove_other.
Qed.

(** X3: the two queries agree: [is_favorite] holds for a recipe id and a
    user exactly when [get_favorites] of that user lists a recipe with
    that id. *)
Theorem is_favorite_agrees_with_list :
  forall (rid uid : Z) (t : favorites_table),
    is_favorite rid uid t = true
    <-> exists f, In f (get_favorites uid t) /\ id f = rid.
Proof.
  intros rid uid t. rewrite is_favorite_listed, existsb_exists.
  split; intros (f & Hin & Hid); exists f; split; auto;
    now apply Z.eqb_eq.
Qed.

(** X4: storing a recipe that was not a favorite and removing it again
    gives back the table as it was, and removing reverts any number of
    stored copies at once. *)
Theorem add_then_remove_restores :
  forall (r : Recipe) (uid : Z) (t : favorites_table),
    is_favorite (id r) uid t = false ->
    remove_favorite (id r) uid (add_favorite r uid t) = t
    /\ remove_favorite (id r) uid (add_favorite r uid (add_favorite r uid t))
       = t.
Proof.
  intros r uid t H. split; [now apply remove_after_add|].
  unfold add_favorite at 1. unfold remove_favorite. rewrite filter_app.
  simpl. unfold matches at 2. simpl. rewrite !Z.eqb_refl. simpl.
  rewrite app_nil_r. now apply remove_after_add.
Qed.

(** ** What the handlers do to the store *)

Lemma is_favorite_false_not_in (rid uid : Z) (t : favorites_table) :
  is_favorite rid uid t = false ->
  ~ In (rid, uid) (map (fun r => (recipe_id r, user_id r)) t).
Proof.
  unfold is_favorite. intros H Hin. apply in_map_iff in Hin.
  destruct Hin as (r & Hr & Hin).
  assert (existsb (matches rid uid) t = true) as E.
  { apply existsb_exists. exists r. split; [assumption|].
    unfold matches. inversion Hr. now rewrite !Z.eqb_refl. }
  congruence.
Qed.

Lemma filter_keeps_distinct {K R} (key : R -> K) (keep : R -> bool)
    (rows : list R) :
  NoDup (map key rows) -> NoDup (map key (filter keep rows)).
Proof.
  intros H. induction rows as [|x rows IH]; simpl; [constructor|].
  simpl in H. inversion H as [|? ? Hx Hrows]; subst.
  destruct (keep x); simpl; [|auto].
  constructor; [|auto]. intros Hin. apply Hx.
  apply in_map_iff in Hin. destruct Hin as (y & Hy & Hin).
  apply filter_In in Hin. apply in_map_iff. exists y. tauto.
Qed.

Lemma stored_once_remove (rid uid : Z) (t : favorites_table) :
  stored_once t -> stored_once (remove_favorite rid uid t).
Proof. apply filter_keeps_distinct. Qed.

Lemma stored_once_add (r : Recipe) (uid : Z) (t : favorites_table) :
  is_favorite (id r) uid t = false ->
  stored_once t -> stored_once (add_favorite r uid t).
Proof.
  unfold stored_once, add_favorite. intros Hfav H.
  rewrite map_app. simpl.
  apply NoDup_app; [assumption|repeat constructor; simpl; tauto|].
  intros p Hp [Hq|[]]. subst p.
  now apply (is_favorite_false_not_in _ _ _ Hfav).
Qed.

(** The table after a press in search mode: untouched, or with one pair
    removed, or with one recipe added that was not a favorite. *)
Lemma recipe_navigation_db (query : CallbackQuery) (w : world) :
  db (snd (handle_recipe_navigation query w)) = db w
  \/ (exists rid,
        db (snd (handle_recipe_navigation query w))
        = remove_favorite rid (from_user query) (db w))
  \/ (exists r,
        is_favorite (id r) (from_user query) (db w) = false
        /\ db (snd (handle_recipe_navigation query w))
           = add_favorite r (from_user query) (db w)).
Proof.
  unfold handle_recipe_navigation, action_id. run.
  repeat (branch || call_show); items_case;
    repeat match goal with
           | H : db _ = _ |- _ => rewrite H; clear H
           end; run;
    try (left; reflexivity).
  - right. left. eexists. reflexivity.
  - right. right.
    match goal with
    | H : find _ _ = Some ?r |- _ =>
        exists r; rewrite (find_id _ _ _ H); split; [assumption|reflexivity]
    end.
Qed.

Lemma favorites_navigation_db (query : CallbackQuery) (w : world) :
  db (snd (handle_favorites_navigation query w)) = db w
  \/ (exists rid,
        db (snd (handle_favorites_navigation query w))
        = remove_favorite rid (from_user query) (db w)).
Proof.
  unfold handle_favorites_navigation, action_id. run.
  repeat (branch || call_show); items_case;
    repeat match goal with
           | H : db _ = _ |- _ => rewrite H; clear H
           end; run;
    try (left; reflexivity);
    right; eexists; reflexivity.
Qed.

Lemma process_search_db (update : Update) (ingredients : pystr) (w : world) :
  db (snd (process_search update ingredients w)) = db w.
Proof.
  unfold process_search. run.
  repeat (branch || call_show); items_case;
    repeat match goal with
           | H : db _ = _ |- _ => rewrite H; clear H
           end; run; reflexivity.
Qed.

Lemma show_favorites_db (update : Update) (w : world) :
  db (snd (show_favorites update w)) = db w.
Proof.
  unfold show_favorites. run.
  repeat (branch || call_show); items_case;
    repeat match goal with
           | H : db _ = _ |- _ => rewrite H; clear H
           end; run; reflexivity.
Qed.

(** X5: the handlers never store a (user, recipe) pair twice: a table in
    which every pair occurs at most once stays so through any search,
    favorites listing or button press, whatever the callback data. *)
Theorem handlers_store_each_pair_once :
  forall (w : world),
    stored_once (db w) ->
    (forall update ingredients,
        stored_once (db (snd (process_search update ingredients w))))
    /\ (forall update, stored_once (db (snd (show_favorites update w))))
    /\ (forall query,
          stored_once (db (snd (handle_recipe_navigation query w))))
    /\ (forall query,
          stored_once (db (snd (handle_favorites_navigation query w)))).
Proof.
  intros w H. repeat split.
  - intros u s. now rewrite process_search_db.
  - intros u. now rewrite show_favorites_db.
  - intros q.
    destruct (recipe_navigation_db q w) as [E|[(rid & E)|(r & Hf & E)]];
      rewrite E;
      [assumption|now apply stored_once_remove|now apply stored_once_add].
  - intros q.
    destruct (favorites_navigation_db q w) as [E|(rid & E)]; rewrite E;
      [assumption|now apply stored_once_remove].
Qed.

(** X6: a button press changes the favorites of the pressing user only:
    the list of every other user is the same before and after, in both
    modes. *)
Theorem press_leaves_other_users :
  forall (query : CallbackQuery) (w : world) (uid' : Z),
    from_user query <> uid' ->
    get_favorites uid' (db (snd (handle_recipe_navigation query w)))
      = get_favorites uid' (db w)
    /\ get_favorites uid' (db (snd (handle_favorites_navigation query w)))
       = get_favorites uid' (db w).
Proof.
  intros q w uid' H. split.
  - destruct (recipe_navigation_db q w) as [E|[(rid & E)|(r & Hf & E)]];
      rewrite E;
      [reflexivity|now apply get_favorites_remove_other
      |now apply get_favorites_add_other].
  - destruct (favorites_navigation_db q w) as [E|(rid & E)]; rewrite E;
      [reflexivity|now apply get_favorites_remove_other].
Qed.

(** ** Branches of the navigation handlers *)

Lemma show_recipe_other_mode (update : Update) (w : world) :
  last_fav_photo_message_id (ud (snd (show_recipe update w)))
  = last_fav_photo_message_id (ud w).
Proof. unfold show_recipe. run. repeat branch; reflexivity. Qed.

Lemma show_favorite_recipe_other_mode (update : Update) (w : world) :
  last_photo_message_id (ud (snd (show_favorite_recipe update w)))
  = last_photo_message_id (ud w).
Proof. unfold show_favorite_recipe. run. repeat branch; reflexivity. Qed.

(** A call of a renderer, replaced by what it leaves alone in both modes. *)
Ltac call_show_modes :=
  match goal with
  | |- context [show_recipe ?u ?w] =>
      let F := fresh "F" in
      let G := fresh "G" in
      pose proof (show_recipe_frame u w) as F;
      pose proof (show_recipe_other_mode u w) as G;
      destruct (show_recipe u w) as [[?|?] ?]
  | |- context [show_favorite_recipe ?u ?w] =>
      let F := fresh "F" in
      let G := fresh "G" in
      pose proof (show_favorite_recipe_frame u w) as F;
      pose proof (show_favorite_recipe_other_mode u w) as G;
      destruct (show_favorite_recipe u w) as [[?|?] ?]
  end;
  unfold same_session in *; run;
  repeat match goal with
         | H : _ = _ |- _ => progress cbn [fst snd ud db environ sent
             next_message_id set_ud set_db recipes current_recipe_index
             last_photo_message_id favorites current_favorite_index
             last_fav_photo_message_id set_recipes set_current_recipe_index
             set_last_photo_message_id set_favorites
             set_current_favorite_index set_last_fav_photo_message_id] in H
         | H : _ /\ _ |- _ => destruct H
         end.

Lemma recipe_navigation_other_mode (query : CallbackQuery) (w : world) :
  favorites (ud (snd (handle_recipe_navigation query w))) = favorites (ud w)
  /\ current_favorite_index (ud (snd (handle_recipe_navigation query w)))
     = current_favorite_index (ud w)
  /\ last_fav_photo_message_id (ud (snd (handle_recipe_navigation query w)))
     = last_fav_photo_message_id (ud w).
Proof.
  unfold handle_recipe_navigation, action_id. run.
  repeat (branch || call_show_modes); repeat split; congruence.
Qed.

Lemma favorites_navigation_other_mode (query : CallbackQuery) (w : world) :
  recipes (ud (snd (handle_favorites_navigation query w))) = recipes (ud w)
  /\ current_recipe_index (ud (snd (handle_favorites_navigation query w)))
     = current_recipe_index (ud w)
  /\ last_photo_message_id (ud (snd (handle_favorites_navigation query w)))
     = last_photo_message_id (ud w).
Proof.
  unfold handle_favorites_navigation, action_id. run.
  repeat (branch || call_show_modes); repeat split; congruence.
Qed.

(** X7: the two modes keep separate state: a press handled in search mode
    leaves the favorites list, its cursor and its last message reference
    as they were, and a press handled in favorites mode leaves those of
    the search, whatever the callback data. *)
Theorem modes_do_not_interfere :
  forall (query : CallbackQuery) (w : world),
    (favorites (ud (snd (handle_recipe_navigation query w)))
       = favorites (ud w)
     /\ current_favorite_index (ud (snd (handle_recipe_navigation query w)))
        = current_favorite_index (ud w)
     /\ last_fav_photo_message_id
          (ud (snd (handle_recipe_navigation query w)))
        = last_fav_photo_message_id (ud w))
    /\ (recipes (ud (snd (handle_favorites_navigation query w)))
          = recipes (ud w)
        /\ current_recipe_index
             (ud (snd (handle_favorites_navigation query w)))
           = current_recipe_index (ud w)
        /\ last_photo_message_id
             (ud (snd (handle_favorites_navigation query w)))
           = last_photo_message_id (ud w)).
Proof.
  intros q w. split.
  - apply recipe_navigation_other_mode.
  - apply favorites_navigation_other_mode.
Qed.

Lemma str_eqb_neq (a b : pystr) : a <> b -> str_eqb a b = false.
Proof.
  intros H. destruct (str_eqb a b) eqn:E; [|reflexivity].
  now apply str_eqb_eq in E.
Qed.

Lemma show_recipe_empty (update : Update) (w : world) :
  search_items w = [] -> has_message update = false ->
  show_recipe update w = (Raise AttributeError, w).
Proof.
  unfold search_items, show_recipe. intros E Hm. run.
  rewrite E, Hm. reflexivity.
Qed.

Lemma show_favorite_recipe_empty (update : Update) (w : world) :
  favorite_items w = [] -> has_message update = false ->
  show_favorite_recipe update w = (Raise AttributeError, w).
Proof.
  unfold favorite_items, show_favorite_recipe. intros E Hm. run.
  rewrite E, Hm. reflexivity.
Qed.

(** X10: a press that finds no items in the user data (as after a restart
    of the process) makes the handler raise [AttributeError] once it comes
    to render: the renderer then wants to reply through [update.message],
    which a button press does not carry.  Only the acknowledgement has been
    sent and the store is untouched.  This holds in search mode for every
    callback data but "done" and the favorite toggles, and in favorites
    mode for every callback data but "fav_done" and the removals. *)
Theorem press_without_items_raises :
  forall (query : CallbackQuery) (w : world),
    (search_items w = [] ->
     data query <> str "done" ->
     startswith (data query) (str "fav_") = false ->
     fst (handle_recipe_navigation query w) = Raise AttributeError
     /\ sent (snd (handle_recipe_navigation query w)) = sent w ++ [answer]
     /\ db (snd (handle_recipe_navigation query w)) = db w)
    /\ (favorite_items w = [] ->
        data query <> str "fav_done" ->
        startswith (data query) (str "remove_") = false ->
        fst (handle_favorites_navigation query w) = Raise AttributeError
        /\ sent (snd (handle_favorites_navigation query w))
           = sent w ++ [answer]
        /\ db (snd (handle_favorites_navigation query w)) = db w).
Proof.
  intros q w. split; intros E Hdone Hsw; apply str_eqb_neq in Hdone.
  - unfold handle_recipe_navigation. run. rewrite Hsw, Hdone.
    repeat branch;
      (rewrite show_recipe_empty; [run; repeat split| exact E | reflexivity]).
  - unfold handle_favorites_navigation. run. rewrite Hsw, Hdone.
    repeat branch;
      (rewrite show_favorite_recipe_empty;
       [run; repeat split| exact E | reflexivity]).
Qed.

Lemma startswith_prefix (s p : pystr) :
  startswith s p = true -> exists r, s = p ++ r.
Proof.
  revert s. induction p as [|c p IH]; intros s H; simpl in *.
  - now exists s.
  - destruct s as [|d s]; [discriminate|].
    apply andb_true_iff in H. destruct H as [Hc Hs].
    apply N.eqb_eq in Hc. subst d.
    destruct (IH s Hs) as [r ->]. now exists r.
Qed.

Lemma split_not_nil (sep : N) (s : pystr) : split sep s <> [].
Proof.
  induction s as [|c s IH]; simpl; [discriminate|].
  destruct (c =? sep)%N; [discriminate|].
  destruct (split sep s); discriminate.
Qed.

Lemma split_two_pieces (sep : N) (s : pystr) :
  In sep s -> (2 <= List.length (split sep s))%nat.
Proof.
  induction s as [|c s IH]; simpl; [tauto|].
  intros [->|Hin].
  - rewrite N.eqb_refl. pose proof (split_not_nil sep s).
    destruct (split sep s); [congruence|simpl; lia].
  - specialize (IH Hin). destruct (c =? sep)%N.
    + simpl. lia.
    + destruct (split sep s); simpl in *; lia.
Qed.

(** After a prefix holding the separator, [action.split("_")[1]] exists. *)
Lemma split_second (s p : pystr) :
  startswith s p = true -> In 95%N p ->
  exists part, getitem (split 95 s) 1 = Some part.
Proof.
  intros Hs Hin. destruct (startswith_prefix s p Hs) as [r ->].
  apply getitem_in_range.
  assert (H : (2 <= List.length (split 95 (p ++ r)))%nat).
  { apply split_two_pieces, in_app_iff. now left. }
  unfold len. lia.
Qed.

Lemma fav_prefix_has_separator : In 95%N (str "fav_").
Proof. vm_compute. tauto. Qed.

Lemma remove_prefix_has_separator : In 95%N (str "remove_").
Proof. vm_compute. tauto. Qed.

(** X11: callback data that starts with "fav_" (in search mode) or with
    "remove_" (in favorites mode) always has a piece after the first
    underscore, so the handler never fails on the index; when that piece is
    no integer the handler raises [ValueError] before it has changed
    anything: user data and store are as before and only the
    acknowledgement has been sent. *)
Theorem press_with_bad_id_raises :
  forall (query : CallbackQuery) (w : world),
    (startswith (data query) (str "fav_") = true ->
     exists part,
       getitem (split 95 (data query)) 1 = Some part
       /\ (py_int part = None ->
           fst (handle_recipe_navigation query w) = Raise ValueError
           /\ ud (snd (handle_recipe_navigation query w)) = ud w
           /\ db (snd (handle_recipe_navigation query w)) = db w
           /\ sent (snd (handle_recipe_navigation query w))
              = sent w ++ [answer]))
    /\ (startswith (data query) (str "remove_") = true ->
        exists part,
          getitem (split 95 (data query)) 1 = Some part
          /\ (py_int part = None ->
              fst (handle_favorites_navigation query w) = Raise ValueError
              /\ ud (snd (handle_favorites_navigation query w)) = ud w
              /\ db (snd (handle_favorites_navigation query w)) = db w
              /\ sent (snd (handle_favorites_navigation query w))
                 = sent w ++ [answer])).
Proof.
  intros q w. split; intros Hsw.
  - destruct (split_second _ _ Hsw fav_prefix_has_separator) as [part Hp].
    exists part. split; [exact Hp|]. intros Hint.
    unfold handle_recipe_navigation, action_id. run.
    rewrite (startswith_excludes _ _ (str "prev") Hsw eq_refl).
    rewrite (startswith_excludes _ _ (str "next") Hsw eq_refl).
    cbn [andb]. rewrite Hsw, Hp, Hint. run. repeat split.
  - destruct (split_second _ _ Hsw remove_prefix_has_separator) as [part Hp].
    exists part. split; [exact Hp|]. intros Hint.
    unfold handle_favorites_navigation, action_id. run.
    rewrite (startswith_excludes _ _ (str "fav_prev") Hsw eq_refl).
    rewrite (startswith_excludes _ _ (str "fav_next") Hsw eq_refl).
    cbn [andb]. rewrite Hsw, Hp, Hint. run. repeat split.
Qed.

(** X12: the terminate buttons end the conversation and discard nothing:
    "done" in search mode and "fav_done" in favorites mode return [END],
    take the keyboard off the pressed message (search mode also sends the
    closing text), and leave the user data, with its items and cursor, and
    the store exactly as they were. *)
Theorem terminate_keeps_state :
  forall (query : CallbackQuery) (w : world),
    (data query = str "done" ->
     fst (handle_recipe_navigation query w) = Ok (Some END)
     /\ ud (snd (handle_recipe_navigation query w)) = ud w
     /\ db (snd (handle_recipe_navigation query w)) = db w
     /\ sent (snd (handle_recipe_navigation query w))
        = sent w ++
          [answer; edit_message_reply_markup None;
           reply_text
             (str "Поиск завершен. Используйте /search для нового поиска.")])
    /\ (data query = str "fav_done" ->
        fst (handle_favorites_navigation query w) = Ok (Some END)
        /\ ud (snd (handle_favorites_navigation query w)) = ud w
        /\ db (snd (handle_favorites_navigation query w)) = db w
        /\ sent (snd (handle_favorites_navigation query w))
           = sent w ++ [answer; edit_message_reply_markup None]).
Proof.
  intros q w. split; intros Hd.
  - unfold handle_recipe_navigation. run. rewrite Hd. eval_tests. run.
    rewrite <- !app_assoc. repeat split.
  - unfold handle_favorites_navigation. run. rewrite Hd. eval_tests. run.
    rewrite <- !app_assoc. repeat split.
Qed.

(** X13: callback data a handler has no branch for only re-renders the
    current item.  In search mode that is everything but "prev", "next",
    "done" and the "fav_" toggles (so the position button "count", and the
    buttons of a favorites keyboard that do not start with "fav_"); in
    favorites mode everything but "fav_prev", "fav_next", "fav_done" and
    the "remove_" presses (so every button of a search keyboard).  Items,
    cursor and store are unchanged and, with the cursor in bounds, the
    handler returns normally. *)
Theorem unknown_press_only_renders :
  forall (query : CallbackQuery) (w : world),
    (data query <> str "prev" -> data query <> str "next" ->
     data query <> str "done" ->
     startswith (data query) (str "fav_") = false ->
     search_items (snd (handle_recipe_navigation query w)) = search_items w
     /\ search_cursor (snd (handle_recipe_navigation query w))
        = search_cursor w
     /\ db (snd (handle_recipe_navigation query w)) = db w
     /\ (0 <= search_cursor w < len (search_items w) ->
         fst (handle_recipe_navigation query w) = Ok None))
    /\ (data query <> str "fav_prev" -> data query <> str "fav_next" ->
        data query <> str "fav_done" ->
        startswith (data query) (str "remove_") = false ->
        favorite_items (snd (handle_favorites_navigation query w))
          = favorite_items w
        /\ favorite_cursor (snd (handle_favorites_navigation query w))
           = favorite_cursor w
        /\ db (snd (handle_favorites_navigation query w)) = db w
        /\ (0 <= favorite_cursor w < len (favorite_items w) ->
            fst (handle_favorites_navigation query w) = Ok None)).
Proof.
  intros q w. split; intros H1 H2 H3 Hsw;
    apply str_eqb_neq in H1, H2, H3.
  - unfold handle_recipe_navigation, search_items, search_cursor. run.
    rewrite H1, H2, H3, Hsw. cbn [andb].
    pose proof (show_recipe_frame (update_of_query q)
      {| environ := environ w; db := db w; ud := ud w;
         next_message_id := next_message_id w;
         sent := sent w ++ [answer] |}) as F.
    pose proof (show_recipe_returns (update_of_query q)
      {| environ := environ w; db := db w; ud := ud w;
         next_message_id := next_message_id w;
         sent := sent w ++ [answer] |}) as R.
    unfold same_session, search_cursor, search_items in F, R.
    destruct (show_recipe _ _) as [[a|e] w']; cbn [fst snd] in *;
      destruct F as (Fd & _ & Fr & Fc & _); cbn [ud db] in *;
      rewrite Fr, Fc, Fd; repeat split; intros Hb;
      specialize (R Hb); congruence.
  - unfold handle_favorites_navigation, favorite_items, favorite_cursor. run.
    rewrite H1, H2, H3, Hsw. cbn [andb].
    pose proof (show_favorite_recipe_frame (update_of_query q)
      {| environ := environ w; db := db w; ud := ud w;
         next_message_id := next_message_id w;
         sent := sent w ++ [answer] |}) as F.
    pose proof (show_favorite_recipe_returns (update_of_query q)
      {| environ := environ w; db := db w; ud := ud w;
         next_message_id := next_message_id w;
         sent := sent w ++ [answer] |}) as R.
    unfold same_session, favorite_cursor, favorite_items in F, R.
    destruct (show_favorite_recipe _ _) as [[a|e] w']; cbn [fst snd] in *;
      destruct F as (Fd & _ & _ & _ & Fr & Fc); cbn [ud db] in *;
      rewrite Fr, Fc, Fd; repeat split; intros Hb;
      specialize (R Hb); congruence.
Qed.

(** ** Recipe details *)

Lemma not_specified_not_empty : not_specified <> [].
Proof. vm_compute. discriminate. Qed.

Lemma or_else_not_empty (x d : pystr) : d <> [] -> or_else x d <> [].
Proof. unfold or_else. destruct x; simpl; [auto|discriminate]. Qed.

Lemma or_else_empty (d : pystr) : or_else [] d = d.
Proof. reflexivity. Qed.

(** X8: [get_recipe_details] gives the empty dict without a credential and
    on every failure of the call (transport error, status from 400 to 599,
    body that does not parse).  On success it gives both fields, neither of
    them empty: an empty ingredient list gives the "Не указаны" text, and
    the instructions are those of the first entry of [analyzedInstructions]
    alone, so "Не указаны" when there is no entry or the first one has no
    steps, whatever the later entries hold. *)
Theorem recipe_details_outcomes :
  forall (e : env) (rid : Z),
    (getenv_truthy (SPOONACULAR_API_KEY e) = false ->
     get_recipe_details e rid = None)
    /\ (recipe_information e rid = Transport_error ->
        get_recipe_details e rid = None)
    /\ (forall status_code json,
          recipe_information e rid = Response status_code json ->
          400 <= status_code < 600 ->
          get_recipe_details e rid = None)
    /\ (forall status_code,
          recipe_information e rid = Response status_code None ->
          get_recipe_details e rid = None)
    /\ (forall status_code d,
          getenv_truthy (SPOONACULAR_API_KEY e) = true ->
          recipe_information e rid = Response status_code (Some d) ->
          raise_for_status status_code = false ->
          exists ingredients instructions,
            get_recipe_details e rid = Some (ingredients, instructions)
            /\ ingredients <> [] /\ instructions <> []
            /\ (extendedIngredients d = [] -> ingredients = not_specified)
            /\ (analyzedInstructions d = [] -> instructions = not_specified)
            /\ (forall rest,
                  analyzedInstructions d = [] :: rest ->
                  instructions = not_specified)
            /\ (forall steps rest,
                  analyzedInstructions d = steps :: rest ->
                  instructions =
                  or_else
                    (List.concat
                       (map (fun s => str_of_int (fst s) ++ str ". "
                                      ++ snd s ++ nl) steps))
                    not_specified)
            /\ (extendedIngredients d <> [] ->
                startswith ingredients (str "- ") = true)).
Proof.
  intros e rid. unfold get_recipe_details.
  split; [intros ->; reflexivity|].
  split; [intros ->; now destruct (negb _)|].
  split.
  { intros st j -> Hst. destruct (negb _); [reflexivity|].
    unfold raise_for_status.
    replace ((400 <=? st) && (st <? 600)) with true; [reflexivity|].
    symmetry. apply andb_true_iff.
    split; [apply Z.leb_le|apply Z.ltb_lt]; lia. }
  split.
  { intros st ->. destruct (negb _); [reflexivity|].
    now destruct (raise_for_status st). }
  intros st d Hkey -> Hst. rewrite Hkey, Hst. cbn [negb].
  eexists. eexists. split; [reflexivity|].
  split; [apply or_else_not_empty, not_specified_not_empty|].
  split; [apply or_else_not_empty, not_specified_not_empty|].
  split; [intros ->; reflexivity|].
  split; [intros ->; reflexivity|].
  split; [intros rest ->; reflexivity|].
  split; [intros steps rest ->; reflexivity|].
  intros Hne. destruct (extendedIngredients d) as [|n names]; [congruence|].
  change (str "- ") with [45%N; 32%N]. cbn [map join].
  match goal with
  | |- context [match ?m with [] => _ | _ :: _ => _ end] => destruct m
  end; reflexivity.
Qed.

Lemma local_details_of_basic (r : Recipe) :
  In r basic_recipes ->
  exists ingredients instructions,
    get_local_recipe_details (id r) = Some (ingredients, instructions)
    /\ ingredients <> [] /\ instructions <> [].
Proof.
  intros [<-|[<-|[]]]; eexists; eexists;
    (split; [reflexivity|split; vm_compute; discriminate]).
Qed.

(** X9: the two local tables fit together: without a credential, every
    recipe that [search_recipes] returns, for any input, has details in the
    local detail table, with both fields present; every id other than 1
    and 2 (a favorite saved from the remote service, say) has none, and its
    caption then shows "Не указаны" twice. *)
Theorem local_details_cover_local_search :
  forall (e : env),
    getenv_truthy (SPOONACULAR_API_KEY e) = false ->
    (forall ingredients r,
        In r (search_recipes e ingredients) ->
        exists ingredients_text instructions,
          full_recipe_info_of e (id r) = Some (ingredients_text, instructions)
          /\ ingredients_text <> [] /\ instructions <> [])
    /\ (forall rid,
          rid <> 1 -> rid <> 2 ->
          full_recipe_info_of e rid = None
          /\ details_get (full_recipe_info_of e rid) fst = not_specified
          /\ details_get (full_recipe_info_of e rid) snd = not_specified).
Proof.
  intros e Hkey. unfold full_recipe_info_of. rewrite Hkey. split.
  - intros s r Hin. apply local_details_of_basic.
    unfold search_recipes in Hin.
    rewrite (no_credential_no_call e s Hkey) in Hin. simpl in Hin.
    rewrite get_local_recipes_eq in Hin.
    destruct (contains _ _ && contains _ _); [assumption|destruct Hin].
  - intros rid H1 H2. unfold get_local_recipe_details.
    apply Z.eqb_neq in H1, H2. rewrite H1, H2. repeat split.
Qed.

(** ** Renderings *)

Lemma guard_in_bounds {A} (l : list A) (i : Z) :
  0 <= i < len l -> is_empty l || (len l <=? i) = false.
Proof.
  intros H. apply orb_false_iff. split.
  - apply is_empty_false. intros E. rewrite E in H. unfold len in H.
    simpl in H. lia.
  - apply Z.leb_gt. lia.
Qed.

Lemma show_recipe_effect (update : Update) (w : world) (r : Recipe) :
  0 <= search_cursor w < len (search_items w) ->
  getitem (search_items w) (search_cursor w) = Some r ->
  fst (show_recipe update w) = Ok None
  /\ sent (snd (show_recipe update w)) =
       sent w ++ retraction (effective_chat update) (last_photo_message_id (ud w))
       ++ [recipe_message (environ w) (db w) update r (search_cursor w)
             (len (search_items w))]
  /\ last_photo_message_id (ud (snd (show_recipe update w))) =
       (if image_truthy r then Some (next_message_id w)
        else last_photo_message_id (ud w)).
Proof.
  unfold search_cursor, search_items, show_recipe, recipe_message, retraction.
  intros Hb Hr. run. rewrite (guard_in_bounds _ _ Hb), Hr. run.
  destruct (last_photo_message_id (ud w)) eqn:El; run;
    destruct (image_truthy r); run; rewrite <- ?app_assoc; repeat split;
    assumption.
Qed.

Lemma show_favorite_recipe_effect (update : Update) (w : world) (r : Recipe) :
  0 <= favorite_cursor w < len (favorite_items w) ->
  getitem (favorite_items w) (favorite_cursor w) = Some r ->
  fst (show_favorite_recipe update w) = Ok None
  /\ sent (snd (show_favorite_recipe update w)) =
       sent w ++ retraction (effective_chat update)
                   (last_fav_photo_message_id (ud w))
       ++ [favorite_message (environ w) update r (favorite_cursor w)
             (len (favorite_items w))]
  /\ last_fav_photo_message_id (ud (snd (show_favorite_recipe update w))) =
       Some (next_message_id w).
Proof.
  unfold favorite_cursor, favorite_items, show_favorite_recipe,
    favorite_message, retraction.
  intros Hb Hr. run. rewrite (guard_in_bounds _ _ Hb), Hr. run.
  destruct (last_fav_photo_message_id (ud w)); run;
    destruct (image_truthy r); run; rewrite <- ?app_assoc; repeat split.
Qed.

Lemma getitem_first {A} (x : A) (l : list A) : getitem (x :: l) 0 = Some x.
Proof.
  unfold getitem, len. simpl.
  replace (0 <? Z.pos (Pos.of_succ_nat (List.length l))) with true;
    [reflexivity|]. symmetry. apply Z.ltb_lt. lia.
Qed.

(** X14: [process_search] on a text message, the transport taking every
    call.  When [search_recipes] finds nothing it reports so, returns [END]
    and leaves the user data alone.  Otherwise the results become the items
    and the cursor 0, and it returns [SEARCH] after one message for the
    first result: a photo when the result has an image, a text otherwise,
    under a keyboard whose first button reads "В избранном" or "Добавить в
    избранное" as the store has the result or not, and whose position
    button reads "1/" followed by the number of results.  The store is not
    touched. *)
Theorem process_search_outcomes :
  forall (update : Update) (ingredients : pystr) (w : world),
    has_message update = true ->
    (search_recipes (environ w) ingredients = [] ->
     fst (process_search update ingredients w) = Ok (Some END)
     /\ ud (snd (process_search update ingredients w)) = ud w
     /\ sent (snd (process_search update ingredients w)) =
          sent w ++
          [reply_text (str "Ищу рецепты с: " ++ ingredients ++ str "...");
           reply_text
             (str "Hе найдено рецептов. Попробуйте другие ингредиенты.")])
    /\ (forall first others,
          search_recipes (environ w) ingredients = first :: others ->
          fst (process_search update ingredients w) = Ok (Some SEARCH)
          /\ search_items (snd (process_search update ingredients w))
             = first :: others
          /\ search_cursor (snd (process_search update ingredients w)) = 0
          /\ sent (snd (process_search update ingredients w)) =
               sent w ++
               [reply_text (str "Ищу рецепты с: " ++ ingredients ++ str "...")]
               ++ (match last_photo_message_id (ud w) with
                   | Some m => [delete_message (effective_chat update) m]
                   | None => []
                   end)
               ++ [(let caption :=
                    caption_of first (full_recipe_info_of (environ w) (id first)) in
                    let reply_markup :=
                      [ [ {| text := if is_favorite (id first) (effective_user update) (db w)
                                     then str "В избранном"
                                     else str "Добавить в избранное";
                             callback_data := str "fav_" ++ str_of_int (id first) |} ];
                        [ {| text := str "Назад"; callback_data := str "prev" |};
                          {| text := str "1/" ++ str_of_int (len (first :: others));
                             callback_data := str "count" |};
                          {| text := str "Далее"; callback_data := str "next" |} ];
                        [ {| text := str "Закончить";
                             callback_data := str "done" |} ] ] in
                    if image_truthy first then
                      send_photo (effective_chat update) (get_or (image first) [])
                        caption reply_markup
                    else send_message (effective_chat update) caption reply_markup)])
    /\ str "В избранном" <> str "Добавить в избранное"
    /\ db (snd (process_search update ingredients w)) = db w.
Proof.
  intros u s w Hm.
  split; [|split; [|split; [exact favorite_labels_differ
                            |apply process_search_db]]].
  - intros E. unfold process_search. run. rewrite Hm. run. rewrite E.
    cbn [is_empty]. run. rewrite <- app_assoc. repeat split.
  - intros first others E. unfold process_search. run. rewrite Hm. run.
    rewrite E. cbn [is_empty]. run.
    match goal with
    | |- context [show_recipe u ?w1] =>
        pose proof (show_recipe_frame u w1) as F;
        destruct (show_recipe_effect u w1 first) as (R & S & _);
        [unfold search_cursor, search_items; cbn; pose proof (len_nonneg others);
         unfold len in *; simpl; lia
        |unfold search_cursor, search_items; cbn [ud set_ud set_recipes
           set_current_recipe_index recipes current_recipe_index get_or];
         apply getitem_first|];
        destruct (show_recipe u w1) as [res w2]
    end.
    cbn [fst snd] in *. subst res. unfold same_session in F.
    destruct F as (_ & _ & Fr & Fc & _).
    unfold search_items, search_cursor. cbn [fst snd].
    rewrite Fr, Fc, S. unfold search_items, search_cursor.
    cbn [fst snd ud db environ sent set_ud set_recipes
         set_current_recipe_index recipes current_recipe_index
         last_photo_message_id get_or].
    unfold retraction, recipe_message. rewrite recipe_keyboard_shown.
    rewrite <- !app_assoc. repeat split.
Qed.

(** A call of a renderer on the item [r] under the cursor, replaced by its
    result and its effect. *)
Ltac show_effect r :=
  match goal with
  | |- context [show_recipe ?u ?w1] =>
      let F := fresh "F" in
      let R := fresh "R" in
      let S := fresh "S" in
      let res := fresh "res" in
      pose proof (show_recipe_frame u w1) as F;
      destruct (show_recipe_effect u w1 r) as (R & S & _);
      [unfold search_cursor, search_items; state
      |unfold search_cursor, search_items; state
      |unfold search_cursor, search_items in S;
       destruct (show_recipe u w1) as [res ?]; cbn [fst snd] in R, S, F;
       subst res; unfold same_session in F;
       destruct F as (? & ? & ? & ? & ? & ?); state]
  | |- context [show_favorite_recipe ?u ?w1] =>
      let F := fresh "F" in
      let R := fresh "R" in
      let S := fresh "S" in
      let res := fresh "res" in
      pose proof (show_favorite_recipe_frame u w1) as F;
      destruct (show_favorite_recipe_effect u w1 r) as (R & S & _);
      [unfold favorite_cursor, favorite_items; state
      |unfold favorite_cursor, favorite_items; state
      |unfold favorite_cursor, favorite_items in S;
       destruct (show_favorite_recipe u w1) as [res ?];
       cbn [fst snd] in R, S, F;
       subst res; unfold same_session in F;
       destruct F as (? & ? & ? & ? & ? & ?); state]
  end.

(** X15: [show_favorites] with nothing stored for the user tells so and
    returns [None], not [END], leaving user data and store alone; with
    stored favorites it returns [FAVORITES], takes them as items in storage
    order with the cursor at 0, and sends one message for the first: a
    photo when it has an image, a text otherwise, under a keyboard with the
    "Удалить" button of that recipe and the position button reading "1/"
    followed by the number of favorites. *)
Theorem show_favorites_outcomes :
  forall (update : Update) (w : world),
    (get_favorites (effective_user update) (db w) = [] ->
     has_message update = true ->
     fst (show_favorites update w) = Ok None
     /\ ud (snd (show_favorites update w)) = ud w
     /\ db (snd (show_favorites update w)) = db w
     /\ sent (snd (show_favorites update w)) =
          sent w ++ [reply_text (str "У вас пока нет избранных рецептов.")])
    /\ (forall first others,
          get_favorites (effective_user update) (db w) = first :: others ->
          fst (show_favorites update w) = Ok (Some FAVORITES)
          /\ favorite_items (snd (show_favorites update w)) = first :: others
          /\ favorite_cursor (snd (show_favorites update w)) = 0
          /\ db (snd (show_favorites update w)) = db w
          /\ sent (snd (show_favorites update w)) =
               sent w
               ++ (match last_fav_photo_message_id (ud w) with
                   | Some m => [delete_message (effective_chat update) m]
                   | None => []
                   end)
               ++ [(let caption :=
                    caption_of first (full_recipe_info_of (environ w) (id first)) in
                    let reply_markup :=
                      [ [ {| text := str "Удалить";
                             callback_data := str "remove_" ++ str_of_int (id first) |} ];
                        [ {| text := str "Назад"; callback_data := str "fav_prev" |};
                          {| text := str "1/" ++ str_of_int (len (first :: others));
                             callback_data := str "fav_count" |};
                          {| text := str "Далее"; callback_data := str "fav_next" |} ];
                        [ {| text := str "Закончить";
                             callback_data := str "fav_done" |} ] ] in
                    if image_truthy first then
                      send_photo (effective_chat update) (get_or (image first) [])
                        caption reply_markup
                    else send_message (effective_chat update) caption reply_markup)]).
Proof.
  intros u w. split.
  - intros E Hm. unfold show_favorites. run. rewrite E. cbn [is_empty]. run.
    rewrite Hm. run. repeat split.
  - intros first others E. unfold show_favorites. run. rewrite E.
    cbn [is_empty]. run.
    show_effect first.
    + pose proof (len_nonneg others). unfold len in *. simpl. lia.
    + apply getitem_first.
    + unfold favorite_items, favorite_cursor. state. rewrite_state.
      unfold retraction, favorite_message. rewrite favorite_keyboard_shown.
      repeat split.
Qed.

(** ** Moving the cursor *)

Lemma recipe_prev_moves (query : CallbackQuery) (w : world) :
  data query = str "prev" -> 0 < search_cursor w ->
  search_cursor (snd (handle_recipe_navigation query w)) = search_cursor w - 1
  /\ search_items (snd (handle_recipe_navigation query w)) = search_items w.
Proof.
  unfold search_cursor, search_items. intros Hd Hc.
  apply Z.ltb_lt in Hc.
  unfold handle_recipe_navigation. run. rewrite Hd. eval_tests.
  rewrite Hc. call_show; items_case; split; reflexivity.
Qed.

Lemma recipe_next_moves (query : CallbackQuery) (w : world) :
  data query = str "next" -> search_cursor w < len (search_items w) - 1 ->
  search_cursor (snd (handle_recipe_navigation query w)) = search_cursor w + 1
  /\ search_items (snd (handle_recipe_navigation query w)) = search_items w.
Proof.
  unfold search_cursor, search_items. intros Hd Hc.
  apply Z.ltb_lt in Hc.
  unfold handle_recipe_navigation. run. rewrite Hd. eval_tests.
  rewrite Hc. call_show; items_case; split; reflexivity.
Qed.

Lemma favorites_prev_moves (query : CallbackQuery) (w : world) :
  data query = str "fav_prev" -> 0 < favorite_cursor w ->
  favorite_cursor (snd (handle_favorites_navigation query w))
    = favorite_cursor w - 1
  /\ favorite_items (snd (handle_favorites_navigation query w))
     = favorite_items w.
Proof.
  unfold favorite_cursor, favorite_items. intros Hd Hc.
  apply Z.ltb_lt in Hc.
  unfold handle_favorites_navigation. run. rewrite Hd. eval_tests.
  rewrite Hc. call_show; items_case; split; reflexivity.
Qed.

Lemma favorites_next_moves (query : CallbackQuery) (w : world) :
  data query = str "fav_next" ->
  favorite_cursor w < len (favorite_items w) - 1 ->
  favorite_cursor (snd (handle_favorites_navigation query w))
    = favorite_cursor w + 1
  /\ favorite_items (snd (handle_favorites_navigation query w))
     = favorite_items w.
Proof.
  unfold favorite_cursor, favorite_items. intros Hd Hc.
  apply Z.ltb_lt in Hc.
  unfold handle_favorites_navigation. run. rewrite Hd. eval_tests.
  rewrite Hc. call_show; items_case; split; reflexivity.
Qed.

(** X16: away from the boundaries "next" and "prev" undo each other: from
    a cursor that is not on the last item, "next" followed by "prev" is
    back on the same item of the same list, and from one that is past the
    first, "prev" followed by "next" is; in both modes. *)
Theorem next_and_prev_are_inverse :
  forall (next prev : CallbackQuery) (w : world),
    (data next = str "next" -> data prev = str "prev" ->
     (0 <= search_cursor w < len (search_items w) - 1 ->
      search_cursor
        (snd (handle_recipe_navigation prev
                (snd (handle_recipe_navigation next w)))) = search_cursor w)
     /\ (0 < search_cursor w < len (search_items w) ->
         search_cursor
           (snd (handle_recipe_navigation next
                   (snd (handle_recipe_navigation prev w))))
         = search_cursor w))
    /\ (data next = str "fav_next" -> data prev = str "fav_prev" ->
        (0 <= favorite_cursor w < len (favorite_items w) - 1 ->
         favorite_cursor
           (snd (handle_favorites_navigation prev
                   (snd (handle_favorites_navigation next w))))
         = favorite_cursor w)
        /\ (0 < favorite_cursor w < len (favorite_items w) ->
            favorite_cursor
              (snd (handle_favorites_navigation next
                      (snd (handle_favorites_navigation prev w))))
            = favorite_cursor w)).
Proof.
  intros n p w. split; intros Hn Hp; split; intros Hb.
  - destruct (recipe_next_moves n w Hn) as [Hc Hi]; [lia|].
    destruct (recipe_prev_moves p (snd (handle_recipe_navigation n w)) Hp)
      as [Hc' _]; lia.
  - destruct (recipe_prev_moves p w Hp) as [Hc Hi]; [lia|].
    destruct (recipe_next_moves n (snd (handle_recipe_navigation p w)) Hn)
      as [Hc' _]; [rewrite Hc, Hi|]; lia.
  - destruct (favorites_next_moves n w Hn) as [Hc Hi]; [lia|].
    destruct (favorites_prev_moves p
                (snd (handle_favorites_navigation n w)) Hp)
      as [Hc' _]; lia.
  - destruct (favorites_prev_moves p w Hp) as [Hc Hi]; [lia|].
    destruct (favorites_next_moves n
                (snd (handle_favorites_navigation p w)) Hn)
      as [Hc' _]; [rewrite Hc, Hi|]; lia.
Qed.

(** X17: a "next" press on an item that is not the last returns normally,
    moves the cursor by one and, after the acknowledgement, retracts the
    photo recorded last and sends one message for the item now under the
    cursor: a photo when it has an image, a text otherwise, under a
    keyboard whose first button reads "В избранном" or "Добавить в
    избранное" (two different labels) as the store has the item or not for
    the pressing user, and whose position button reads the new cursor plus
    one, "/", and the number of items.  A "prev" press on an item that is
    not the first does the same one item back. *)
Theorem press_moves_and_renders :
  forall (query : CallbackQuery) (w : world) (r : Recipe),
    (data query = str "next" ->
     0 <= search_cursor w < len (search_items w) - 1 ->
     getitem (search_items w) (search_cursor w + 1) = Some r ->
     fst (handle_recipe_navigation query w) = Ok None
     /\ search_cursor (snd (handle_recipe_navigation query w))
        = search_cursor w + 1
     /\ sent (snd (handle_recipe_navigation query w)) =
          sent w ++ [answer]
          ++ (match last_photo_message_id (ud w) with
              | Some m => [delete_message (chat query) m]
              | None => []
              end)
          ++ [(let caption :=
               caption_of r (full_recipe_info_of (environ w) (id r)) in
               let reply_markup :=
                 [ [ {| text := if is_favorite (id r) (from_user query) (db w)
                                then str "В избранном"
                                else str "Добавить в избранное";
                        callback_data := str "fav_" ++ str_of_int (id r) |} ];
                   [ {| text := str "Назад"; callback_data := str "prev" |};
                     {| text := str_of_int (search_cursor w + 1 + 1)
                                ++ str "/" ++ str_of_int (len (search_items w));
                        callback_data := str "count" |};
                     {| text := str "Далее"; callback_data := str "next" |} ];
                   [ {| text := str "Закончить";
                        callback_data := str "done" |} ] ] in
               if image_truthy r then
                 send_photo (chat query) (get_or (image r) [])
                   caption reply_markup
               else send_message (chat query) caption reply_markup)])
    /\ (data query = str "prev" ->
        0 < search_cursor w < len (search_items w) ->
        getitem (search_items w) (search_cursor w - 1) = Some r ->
        fst (handle_recipe_navigation query w) = Ok None
        /\ search_cursor (snd (handle_recipe_navigation query w))
           = search_cursor w - 1
        /\ sent (snd (handle_recipe_navigation query w)) =
             sent w ++ [answer]
             ++ (match last_photo_message_id (ud w) with
                 | Some m => [delete_message (chat query) m]
                 | None => []
                 end)
             ++ [(let caption :=
                  caption_of r (full_recipe_info_of (environ w) (id r)) in
                  let reply_markup :=
                    [ [ {| text := if is_favorite (id r) (from_user query) (db w)
                                   then str "В избранном"
                                   else str "Добавить в избранное";
                           callback_data := str "fav_" ++ str_of_int (id r) |} ];
                      [ {| text := str "Назад"; callback_data := str "prev" |};
                        {| text := str_of_int (search_cursor w - 1 + 1)
                                   ++ str "/" ++ str_of_int (len (search_items w));
                           callback_data := str "count" |};
                        {| text := str "Далее"; callback_data := str "next" |} ];
                      [ {| text := str "Закончить";
                           callback_data := str "done" |} ] ] in
                  if image_truthy r then
                    send_photo (chat query) (get_or (image r) [])
                      caption reply_markup
                  else send_message (chat query) caption reply_markup)])
    /\ str "В избранном" <> str "Добавить в избранное".
Proof.
  intros q w r.
  split; [|split; [|exact favorite_labels_differ]]; intros Hd Hb Hr;
    unfold search_cursor, search_items in *.
  - assert (Hc : (get_or (current_recipe_index (ud w)) 0
                  <? len (get_or (recipes (ud w)) []) - 1) = true)
      by (apply Z.ltb_lt; lia).
    unfold handle_recipe_navigation. run. rewrite Hd. eval_tests.
    rewrite Hc. run. show_effect r; [lia|exact Hr|].
    rewrite_state. unfold search_cursor, search_items. state.
    unfold retraction, recipe_message. rewrite recipe_keyboard_shown.
    rewrite <- !app_assoc. repeat split.
  - assert (Hc : (0 <? get_or (current_recipe_index (ud w)) 0) = true)
      by (apply Z.ltb_lt; lia).
    unfold handle_recipe_navigation. run. rewrite Hd. eval_tests.
    rewrite Hc. run. show_effect r; [lia|exact Hr|].
    rewrite_state. unfold search_cursor, search_items. state.
    unfold retraction, recipe_message. rewrite recipe_keyboard_shown.
    rewrite <- !app_assoc. repeat split.
Qed.

(** ** Callback data *)

Lemma str_ascii_cons (a : ascii) (s : string) :
  (N.of_nat (Byte.to_nat (byte_of_ascii a)) <? 128)%N = true ->
  str (String a s) = N.of_nat (Byte.to_nat (byte_of_ascii a)) :: str s.
Proof.
  intros H. unfold str. cbn [list_byte_of_string map utf8_decode].
  change (list_byte_of_string (String a s))
    with (byte_of_ascii a :: list_byte_of_string s).
  cbn [map utf8_decode]. now rewrite H.
Qed.

Lemma str_string_of_uint_digits (d : Decimal.uint) :
  str (NilEmpty.string_of_uint d) = uint_codes d.
Proof.
  induction d; cbn [NilEmpty.string_of_uint uint_codes];
    [reflexivity|..];
    (rewrite str_ascii_cons; [now rewrite IHd|reflexivity]).
Qed.

Lemma str_string_of_uint (d : Decimal.uint) :
  d <> Decimal.Nil -> str (NilZero.string_of_uint d) = uint_codes d.
Proof.
  intros H. rewrite <- str_string_of_uint_digits.
  destruct d; [congruence|reflexivity..].
Qed.

Lemma uint_codes_digits (d : Decimal.uint) :
  Forall (fun c => (48 <= c <= 57)%N) (uint_codes d).
Proof.
  induction d; cbn [uint_codes]; constructor; auto;
    split; apply N.leb_le; reflexivity.
Qed.

Lemma uint_codes_not_nil (d : Decimal.uint) :
  d <> Decimal.Nil -> uint_codes d <> [].
Proof. destruct d; simpl; congruence. Qed.

Lemma digits_uint_acc (d : Decimal.uint) (p : positive) :
  digits (Z.pos p) (uint_codes d) = Some (Z.pos (Pos.of_uint_acc d p)).
Proof.
  revert p. induction d; intros p; cbn [uint_codes digits Pos.of_uint_acc];
    [reflexivity|..];
    (match goal with
     | |- context [if ?b then _ else _] => change b with true
     end; cbn iota; rewrite <- IHd; f_equal; try lia).
Qed.

Lemma digits_uint (d : Decimal.uint) :
  digits 0 (uint_codes d) = Some (Z.of_N (Pos.of_uint d)).
Proof.
  induction d; cbn [uint_codes digits Pos.of_uint];
    [reflexivity|exact IHd|..];
    (match goal with
     | |- context [if ?b then _ else _] => change b with true
     end; cbn iota; cbn [N.sub Z.of_N Z.mul Z.add]; apply digits_uint_acc).
Qed.

Lemma lstrip_id (s : pystr) :
  (forall c, hd_error s = Some c -> isspace c = false) -> lstrip s = s.
Proof.
  destruct s as [|c s]; [reflexivity|]. intros H. simpl.
  now rewrite (H c eq_refl).
Qed.

Lemma hd_error_in {A} (l : list A) (x : A) : hd_error l = Some x -> In x l.
Proof. destruct l; simpl; [discriminate|]. intros H. left. congruence. Qed.

Lemma strip_id (s : pystr) :
  Forall (fun c => isspace c = false) s -> strip s = s.
Proof.
  intros H. rewrite Forall_forall in H. unfold strip, rstrip.
  rewrite (lstrip_id s) by (intros c Hc; apply H, hd_error_in, Hc).
  rewrite lstrip_id; [apply rev_involutive|].
  intros c Hc. apply H, in_rev, hd_error_in, Hc.
Qed.

Lemma digit_not_space (c : N) : (48 <= c <= 57)%N -> isspace c = false.
Proof.
  intros H. unfold isspace.
  repeat match goal with
         | |- context [(?a <=? ?b)%N] =>
             destruct (N.leb_spec a b); try lia
         | |- context [(?a =? ?b)%N] =>
             destruct (N.eqb_spec a b); try lia
         end; reflexivity.
Qed.

Lemma uint_codes_no_space (d : Decimal.uint) :
  Forall (fun c => isspace c = false) (uint_codes d).
Proof.
  eapply Forall_impl; [|apply uint_codes_digits].
  intros c. apply digit_not_space.
Qed.

Lemma unsigned_decimal_uint (p : positive) :
  unsigned_decimal (uint_codes (Pos.to_uint p)) = Some (Z.pos p).
Proof.
  unfold unsigned_decimal.
  pose proof (uint_codes_not_nil _ (DecimalPos.Unsigned.to_uint_nonnil p)).
  destruct (uint_codes (Pos.to_uint p)) eqn:E; [congruence|].
  rewrite <- E, digits_uint, DecimalPos.Unsigned.of_to. reflexivity.
Qed.

Lemma str_of_int_pos (p : positive) :
  str_of_int (Z.pos p) = uint_codes (Pos.to_uint p).
Proof.
  unfold str_of_int. cbn [Z.to_int NilZero.string_of_int].
  apply str_string_of_uint, DecimalPos.Unsigned.to_uint_nonnil.
Qed.

Lemma str_of_int_neg (p : positive) :
  str_of_int (Z.neg p) = 45%N :: uint_codes (Pos.to_uint p).
Proof.
  unfold str_of_int. cbn [Z.to_int NilZero.string_of_int].
  rewrite str_ascii_cons by reflexivity. f_equal.
  apply str_string_of_uint, DecimalPos.Unsigned.to_uint_nonnil.
Qed.

(** The reference [int_decimal] reads back what [str] writes. *)
Lemma int_decimal_str_of_int (z : Z) : int_decimal (str_of_int z) = Some z.
Proof.
  destruct z as [|p|p].
  - reflexivity.
  - rewrite str_of_int_pos. unfold int_decimal.
    rewrite strip_id by apply uint_codes_no_space.
    pose proof (unsigned_decimal_uint p) as U.
    pose proof (uint_codes_digits (Pos.to_uint p)) as D.
    destruct (uint_codes (Pos.to_uint p)) as [|c t]; [discriminate|].
    inversion D as [|? ? Hc _]; subst.
    destruct (N.eqb_spec c 45); [lia|].
    destruct (N.eqb_spec c 43); [lia|]. exact U.
  - rewrite str_of_int_neg. unfold int_decimal.
    rewrite strip_id.
    + cbn [N.eqb Pos.eqb]. rewrite unsigned_decimal_uint. reflexivity.
    + constructor; [reflexivity|apply uint_codes_no_space].
Qed.

Lemma split_no_separator (sep : N) (s : pystr) :
  ~ In sep s -> split sep s = [s].
Proof.
  clear lower py_int.
  induction s as [|c s IH]; simpl; [reflexivity|]. intros H.
  destruct (N.eqb_spec c sep); [tauto|].
  rewrite IH by tauto. reflexivity.
Qed.

Lemma split_at_separator (sep : N) (a b : pystr) :
  ~ In sep a -> split sep (a ++ sep :: b) = a :: split sep b.
Proof.
  clear lower py_int.
  induction a as [|c a IH]; simpl; intros H.
  - now rewrite N.eqb_refl.
  - destruct (N.eqb_spec c sep); [tauto|].
    rewrite IH by tauto. reflexivity.
Qed.

Lemma str_of_int_no_separator (z : Z) : ~ In 95%N (str_of_int z).
Proof.
  assert (D : forall d, ~ In 95%N (uint_codes d)).
  { intros d Hin. pose proof (uint_codes_digits d) as F.
    rewrite Forall_forall in F. specialize (F _ Hin). lia. }
  destruct z as [|p|p].
  - change (str_of_int 0) with [48%N]. intros [H|[]]. discriminate H.
  - rewrite str_of_int_pos. apply D.
  - rewrite str_of_int_neg. intros [H|H]; [discriminate|now apply (D _ H)].
Qed.

Lemma second_piece_of_fav (z : Z) :
  getitem (split 95 (str "fav_" ++ str_of_int z)) 1 = Some (str_of_int z).
Proof.
  change (str "fav_") with ([102; 97; 118] ++ [95])%N.
  rewrite <- app_assoc. cbn [app].
  change (102 :: 97 :: 118 :: 95 :: str_of_int z)%N
    with ([102; 97; 118] ++ 95 :: str_of_int z)%N.
  rewrite split_at_separator
    by (intros [H|[H|[H|[]]]]; discriminate).
  rewrite split_no_separator by apply str_of_int_no_separator.
  reflexivity.
Qed.

Lemma second_piece_of_remove (z : Z) :
  getitem (split 95 (str "remove_" ++ str_of_int z)) 1 = Some (str_of_int z).
Proof.
  change (str "remove_") with ([114; 101; 109; 111; 118; 101] ++ [95])%N.
  rewrite <- app_assoc. cbn [app].
  change (114 :: 101 :: 109 :: 111 :: 118 :: 101 :: 95 :: str_of_int z)%N
    with ([114; 101; 109; 111; 118; 101] ++ 95 :: str_of_int z)%N.
  rewrite split_at_separator
    by (intros [H|[H|[H|[H|[H|[H|[]]]]]]]; discriminate).
  rewrite split_no_separator by apply str_of_int_no_separator.
  reflexivity.
Qed.

(** X18: the callback data the keyboards carry reads back as the recipe id:
    when [int] reads every [str(n)] as [n], the favorite button of a
    search keyboard and the remove button of a favorites keyboard, for any
    recipe (its id may be negative), give back its id in the handlers,
    without raising. *)
Theorem button_data_round_trip :
  forall (r : Recipe) (is_fav : bool) (current_index total : Z) (w : world),
    (forall n, py_int (str_of_int n) = Some n) ->
    (exists button others rows,
        recipe_keyboard is_fav r current_index total
          = (button :: others) :: rows
        /\ startswith (callback_data button) (str "fav_") = true
        /\ action_id (callback_data button) w = (Ok (id r), w))
    /\ (exists button others rows,
          favorite_keyboard r current_index total
            = (button :: others) :: rows
          /\ startswith (callback_data button) (str "remove_") = true
          /\ action_id (callback_data button) w = (Ok (id r), w)).
Proof.
  intros r is_fav i n w Hint. split.
  - eexists. eexists. eexists. split; [reflexivity|].
    cbn [callback_data]. split; [apply startswith_app|].
    unfold action_id. now rewrite second_piece_of_fav, Hint.
  - eexists. eexists. eexists. split; [reflexivity|].
    cbn [callback_data]. split; [apply startswith_app|].
    unfold action_id. now rewrite second_piece_of_remove, Hint.
Qed.

(** ** Pressing the buttons of the current rendering *)

Lemma getitem_nth {A} (l : list A) (i : Z) :
  0 <= i < len l -> getitem l i = nth_error l (Z.to_nat i).
Proof.
  intros H. unfold getitem.
  replace ((0 <=? i) && (i <? len l)) with true; [reflexivity|].
  symmetry. apply andb_true_iff. split; [apply Z.leb_le|apply Z.ltb_lt]; lia.
Qed.

Lemma find_unique (l : list Recipe) (r : Recipe) :
  NoDup (map id l) -> In r l -> find (fun x => id x =? id r) l = Some r.
Proof.
  induction l as [|x l IH]; simpl; [tauto|].
  intros Hnd [->|Hin].
  - now rewrite Z.eqb_refl.
  - inversion Hnd as [|? ? Hx Hl]; subst.
    destruct (Z.eqb_spec (id x) (id r)) as [E|_]; [|now apply IH].
    exfalso. apply Hx. rewrite E. now apply in_map.
Qed.

Lemma toggle_effect (query : CallbackQuery) (w : world) (part : pystr)
    (rid : Z) (recipe : Recipe) :
  startswith (data query) (str "fav_") = true ->
  getitem (split 95 (data query)) 1 = Some part ->
  py_int part = Some rid ->
  find (fun r => id r =? rid) (search_items w) = Some recipe ->
  fst (handle_recipe_navigation query w) = Ok None
  /\ db (snd (handle_recipe_navigation query w)) =
       (if is_favorite rid (from_user query) (db w)
        then remove_favorite rid (from_user query) (db w)
        else add_favorite recipe (from_user query) (db w)).
Proof.
  intros Hsw Hpart Hint Hfind.
  unfold handle_recipe_navigation, action_id, search_items in *. run.
  rewrite (startswith_excludes _ _ (str "prev") Hsw eq_refl).
  rewrite (startswith_excludes _ _ (str "next") Hsw eq_refl).
  cbn [andb]. rewrite Hsw, Hpart, Hint. run. rewrite Hfind. run.
  destruct (is_favorite rid (from_user query) (db w)); run; split; reflexivity.
Qed.

(** X19: pressing the favorite button rendered for the item under the
    cursor, in a result list whose ids are distinct, toggles that very
    item: if it was not a favorite it is appended, as it stands in the
    list, to what [get_favorites] returns for the user, and if it was, the
    entries with its id are gone.  So from no favorites, one press gives
    exactly that one favorite. *)
Theorem press_favorite_of_current_item :
  forall (query : CallbackQuery) (w : world) (r : Recipe),
    (forall n, py_int (str_of_int n) = Some n) ->
    0 <= search_cursor w < len (search_items w) ->
    getitem (search_items w) (search_cursor w) = Some r ->
    NoDup (map id (search_items w)) ->
    data query = str "fav_" ++ str_of_int (id r) ->
    fst (handle_recipe_navigation query w) = Ok None
    /\ (is_favorite (id r) (from_user query) (db w) = false ->
        get_favorites (from_user query)
          (db (snd (handle_recipe_navigation query w)))
        = get_favorites (from_user query) (db w) ++ [r])
    /\ (is_favorite (id r) (from_user query) (db w) = true ->
        get_favorites (from_user query)
          (db (snd (handle_recipe_navigation query w)))
        = filter (fun f => negb (id f =? id r))
            (get_favorites (from_user query) (db w)))
    /\ (get_favorites (from_user query) (db w) = [] ->
        get_favorites (from_user query)
          (db (snd (handle_recipe_navigation query w))) = [r]).
Proof.
  intros q w r Hint Hb Hr Hnd Hd.
  assert (Hin : In r (search_items w)).
  { rewrite getitem_nth in Hr by exact Hb. eapply nth_error_In, Hr. }
  destruct (toggle_effect q w (str_of_int (id r)) (id r) r) as [Hres Hdb].
  - rewrite Hd. apply startswith_app.
  - rewrite Hd. apply second_piece_of_fav.
  - apply Hint.
  - now apply find_unique.
  - split; [exact Hres|]. rewrite Hdb. split; [|split].
    + intros ->. apply get_favorites_add.
    + intros ->. apply get_favorites_remove.
    + intros E. rewrite is_favorite_listed, E. cbn [existsb].
      now rewrite get_favorites_add, E.
Qed.

Lemma filter_keeps_all {A} (f : A -> bool) (l : list A) :
  (forall x, In x l -> f x = true) -> filter f l = l.
Proof.
  induction l as [|x l IH]; simpl; [reflexivity|]. intros H.
  rewrite (H x) by now left. f_equal. apply IH. intros y Hy. apply H.
  now right.
Qed.

(** Filtering out the id of the item at position [i], when ids are
    distinct, takes out that item alone. *)
Lemma filter_out_nth (l : list Recipe) (i : nat) (r : Recipe) :
  NoDup (map id l) -> nth_error l i = Some r ->
  filter (fun f => negb (id f =? id r)) l = firstn i l ++ skipn (S i) l.
Proof.
  revert i. induction l as [|x l IH]; intros i Hnd Hr.
  - destruct i; discriminate.
  - inversion Hnd as [|? ? Hx Hl]; subst. destruct i as [|i]; simpl in *.
    + inversion Hr; subst. rewrite Z.eqb_refl. simpl.
      apply filter_keeps_all. intros y Hy. apply negb_true_iff, Z.eqb_neq.
      intros E. apply Hx. rewrite <- E. now apply in_map.
    + assert (id x <> id r) as Hne.
      { intros E. apply Hx. rewrite E. apply in_map.
        eapply nth_error_In, Hr. }
      apply Z.eqb_neq in Hne. rewrite Hne. simpl. f_equal. now apply IH.
Qed.

Lemma nth_error_without {A} (l : list A) (i : nat) :
  (i <= List.length l)%nat ->
  nth_error (firstn i l ++ skipn (S i) l) i = nth_error l (S i).
Proof.
  intros H. rewrite nth_error_app2; rewrite length_firstn, Nat.min_l by lia;
    [|lia].
  rewrite Nat.sub_diag, nth_error_skipn. f_equal. lia.
Qed.

Lemma nth_error_without_before {A} (l : list A) (i j : nat) :
  (j < i <= List.length l)%nat ->
  nth_error (firstn i l ++ skipn (S i) l) j = nth_error l j.
Proof.
  intros H. rewrite nth_error_app1 by (rewrite length_firstn; lia).
  rewrite nth_error_firstn.
  replace (j <? i)%nat with true; [reflexivity|].
  symmetry. apply Nat.ltb_lt. lia.
Qed.

Lemma length_without {A} (l : list A) (i : nat) :
  (i < List.length l)%nat ->
  List.length (firstn i l ++ skipn (S i) l) = (List.length l - 1)%nat.
Proof.
  intros H. rewrite length_app, length_firstn, length_skipn. lia.
Qed.

Lemma remove_effect (query : CallbackQuery) (w : world) (part : pystr)
    (rid : Z) :
  startswith (data query) (str "remove_") = true ->
  getitem (split 95 (data query)) 1 = Some part ->
  py_int part = Some rid ->
  favorite_items (snd (handle_favorites_navigation query w))
    = filter (fun f => negb (id f =? rid)) (favorite_items w)
  /\ (filter (fun f => negb (id f =? rid)) (favorite_items w) <> [] ->
      favorite_cursor (snd (handle_favorites_navigation query w))
      = (if len (filter (fun f => negb (id f =? rid)) (favorite_items w))
            <=? favorite_cursor w
         then len (filter (fun f => negb (id f =? rid)) (favorite_items w)) - 1
         else favorite_cursor w)
      /\ (0 <= favorite_cursor w ->
          fst (handle_favorites_navigation query w) = Ok None)).
Proof.
  intros Hsw Hpart Hint.
  unfold handle_favorites_navigation, action_id, favorite_cursor,
    favorite_items in *. run.
  rewrite (startswith_excludes _ _ (str "fav_prev") Hsw eq_refl).
  rewrite (startswith_excludes _ _ (str "fav_next") Hsw eq_refl).
  cbn [andb]. rewrite Hsw, Hpart, Hint. run.
  destruct (is_empty _) eqn:Hempty; run.
  - apply is_empty_true in Hempty. split; [now rewrite Hempty|].
    intros H. now rewrite Hempty in H.
  - apply is_empty_false in Hempty. pose proof (len_pos _ Hempty) as Hpos.
    destruct (len _ <=? get_or (current_favorite_index (ud w)) 0) eqn:Hc;
      run; bool_facts; call_show_full; rewrite_state; cbn [get_or];
      (split; [reflexivity|]); intros _; (split; [reflexivity|]);
      intros Hnonneg; try reflexivity; (rewrite R by lia); reflexivity.
Qed.

(** X20: removing the favorite under the cursor, in a list of at least two
    items with distinct ids, takes that one item out and returns normally;
    the cursor then shows the item that followed it, or, when the removed
    item was the last, the one before it. *)
Theorem remove_current_shows_neighbour :
  forall (query : CallbackQuery) (w : world) (r : Recipe) (part : pystr),
    startswith (data query) (str "remove_") = true ->
    getitem (split 95 (data query)) 1 = Some part ->
    py_int part = Some (id r) ->
    0 <= favorite_cursor w < len (favorite_items w) ->
    getitem (favorite_items w) (favorite_cursor w) = Some r ->
    NoDup (map id (favorite_items w)) ->
    1 < len (favorite_items w) ->
    fst (handle_favorites_navigation query w) = Ok None
    /\ len (favorite_items (snd (handle_favorites_navigation query w)))
       = len (favorite_items w) - 1
    /\ (favorite_cursor w < len (favorite_items w) - 1 ->
        favorite_cursor (snd (handle_favorites_navigation query w))
          = favorite_cursor w
        /\ getitem (favorite_items (snd (handle_favorites_navigation query w)))
             (favorite_cursor w)
           = getitem (favorite_items w) (favorite_cursor w + 1))
    /\ (favorite_cursor w = len (favorite_items w) - 1 ->
        favorite_cursor (snd (handle_favorites_navigation query w))
          = favorite_cursor w - 1
        /\ getitem (favorite_items (snd (handle_favorites_navigation query w)))
             (favorite_cursor w - 1)
           = getitem (favorite_items w) (favorite_cursor w - 1)).
Proof.
  intros q w r part Hsw Hpart Hint Hb Hr Hnd Hlen.
  destruct (remove_effect q w part (id r) Hsw Hpart Hint) as [Hitems Hrest].
  rewrite getitem_nth in Hr by exact Hb.
  rewrite (filter_out_nth _ _ _ Hnd Hr) in Hitems, Hrest.
  set (i := Z.to_nat (favorite_cursor w)) in *.
  set (l := favorite_items w) in *.
  assert (Hi : (i < List.length l)%nat) by (unfold len in Hb; lia).
  assert (Hl : len (firstn i l ++ skipn (S i) l) = len l - 1).
  { unfold len. rewrite length_without by exact Hi. unfold len in Hlen. lia. }
  assert (Hne : firstn i l ++ skipn (S i) l <> []).
  { intros E. rewrite E in Hl. unfold len in Hl, Hlen. simpl in Hl. lia. }
  destruct (Hrest Hne) as [Hc Hres].
  rewrite Hl in Hc. rewrite Hitems.
  split; [apply Hres; lia|]. split; [exact Hl|]. split.
  - intros Hlt. rewrite Hc.
    destruct (Z.leb_spec (len l - 1) (favorite_cursor w)); [lia|].
    split; [reflexivity|].
    rewrite !getitem_nth by lia. fold i.
    rewrite nth_error_without by lia. f_equal. lia.
  - intros Hlast. rewrite Hc.
    destruct (Z.leb_spec (len l - 1) (favorite_cursor w)); [|lia].
    split; [lia|].
    rewrite !getitem_nth by lia.
    apply nth_error_without_before. unfold len in *. lia.
Qed.

End Bot.

(** ** The program on concrete inputs *)

Example str_decodes_cyrillic : str "яйца" = [1103; 1081; 1094; 1072]%N.
Proof. reflexivity. Qed.

Example str_of_int_negative : str_of_int (-12) = str "-12".
Proof. reflexivity. Qed.

Example split_fav : split 95 (str "fav_12_3") = [str "fav"; str "12"; str "3"].
Proof. reflexivity. Qed.

Example strip_both_ends : strip (str "  eggs, Milk ") = str "eggs, Milk".
Proof. reflexivity. Qed.

Example int_decimal_reads_str_of_int :
  int_decimal (str_of_int (-715)) = Some (-715).
Proof. reflexivity. Qed.

Example lower_simple_cyrillic :
  lower_simple (str "Яйца, МОЛОКО") = str "яйца, молоко".
Proof. reflexivity. Qed.

(** *** C1 *)

(** The English text contains "eggs" and "milk", and finds nothing. *)
Lemma english_eggs_milk_finds_nothing :
  SPOONACULAR_API_KEY env_no_key = None
  /\ contains (str "eggs") (lower_simple (str "eggs, milk")) = true
  /\ contains (str "milk") (lower_simple (str "eggs, milk")) = true
  /\ search_recipes lower_simple env_no_key (str "eggs, milk") = []
  /\ List.length (search_recipes lower_simple env_no_key (str "eggs, milk"))
     <> 2%nat.
Proof.
  repeat split; try reflexivity. vm_compute. discriminate.
Qed.

Lemma search_without_credential_witness :
  getenv_truthy (SPOONACULAR_API_KEY env_no_key) = false
  /\ lower_simple (str "яйца, молоко") = str "яйца, молоко"
  /\ search_recipes lower_simple env_no_key (str "яйца, молоко")
     = basic_recipes.
Proof.
  split; [reflexivity|]. split; [reflexivity|].
  destruct (search_without_credential lower_simple env_no_key
              (str "яйца, молоко") eq_refl) as (_ & _ & _ & H).
  apply H. reflexivity.
Defined.

(** *** C2 *)

(** Status 300 is not a 2xx status, and its parsed body is returned. *)
Lemma status_300_is_not_a_failure :
  SPOONACULAR_API_KEY (env_answering 300 (Some [sample_recipe 7]))
    = Some (str "key")
  /\ ~ (200 <= 300 < 300)
  /\ _call_spoonacular_api lower_simple
       (env_answering 300 (Some [sample_recipe 7])) (str "eggs")
     = [sample_recipe 7]
  /\ _call_spoonacular_api lower_simple
       (env_answering 300 (Some [sample_recipe 7])) (str "eggs") <> []
  /\ search_recipes lower_simple
       (env_answering 300 (Some [sample_recipe 7])) (str "eggs")
     <> get_local_recipes lower_simple (str "eggs").
Proof.
  split; [reflexivity|]. split; [lia|]. split; [reflexivity|].
  split; vm_compute; discriminate.
Qed.

Lemma remote_failure_falls_back_witness :
  SPOONACULAR_API_KEY (env_answering 402 None) = Some (str "key")
  /\ truthy (str "key") = true
  /\ findByIngredients (env_answering 402 None)
       (params lower_simple (str "key") (str "яйца, молоко"))
     = Response 402 None
  /\ _call_spoonacular_api lower_simple (env_answering 402 None)
       (str "яйца, молоко") = []
  /\ search_recipes lower_simple (env_answering 402 None)
       (str "яйца, молоко")
     = get_local_recipes lower_simple (str "яйца, молоко").
Proof.
  split; [reflexivity|]. split; [reflexivity|]. split; [reflexivity|].
  apply (remote_failure_falls_back lower_simple (env_answering 402 None)
           (str "яйца, молоко") (str "key") eq_refl eq_refl).
  right. left. exists 402, None. split; [reflexivity|]. left. reflexivity.
Defined.

(** *** C3 *)

Lemma favorite_round_trip_witness :
  is_favorite 7 5 [sample_row 8 5] = false
  /\ remove_favorite 7 5 [sample_row 8 5] = [sample_row 8 5]
  /\ is_favorite 7 5 (add_favorite (sample_recipe 7) 5 [sample_row 8 5]) = true.
Proof.
  destruct (favorite_round_trip (sample_recipe 7) 7 5 [sample_row 8 5])
    as (Hadd & _ & _ & _ & Hnoop).
  split; [reflexivity|]. split; [apply Hnoop; reflexivity|exact Hadd].
Defined.

(** *** C4 *)

Lemma navigation_clamped_at_boundaries_witness :
  (data (press 5 "prev") = str "prev"
   /\ search_items (browsing (map sample_recipe [1; 2; 3]) 0) <> []
   /\ search_cursor (browsing (map sample_recipe [1; 2; 3]) 0) = 0
   /\ search_cursor
        (snd (handle_recipe_navigation int_decimal (press 5 "prev")
                (browsing (map sample_recipe [1; 2; 3]) 0))) = 0)
  /\ (data (press 5 "fav_next") = str "fav_next"
      /\ favorite_items (browsing_favorites (map sample_recipe [1; 2; 3]) 2)
         <> []
      /\ favorite_cursor (browsing_favorites (map sample_recipe [1; 2; 3]) 2)
         = len (favorite_items
                  (browsing_favorites (map sample_recipe [1; 2; 3]) 2)) - 1
      /\ favorite_cursor
           (snd (handle_favorites_navigation int_decimal (press 5 "fav_next")
                   (browsing_favorites (map sample_recipe [1; 2; 3]) 2))) = 2).
Proof.
  split.
  - destruct (navigation_clamped_at_boundaries int_decimal (press 5 "prev")
                (browsing (map sample_recipe [1; 2; 3]) 0))
      as (Hprev & _).
    split; [reflexivity|]. split; [discriminate|]. split; [reflexivity|].
    apply Hprev; [reflexivity|discriminate|reflexivity].
  - destruct (navigation_clamped_at_boundaries int_decimal
                (press 5 "fav_next")
                (browsing_favorites (map sample_recipe [1; 2; 3]) 2))
      as (_ & _ & _ & Hnext).
    split; [reflexivity|]. split; [discriminate|]. split; [reflexivity|].
    apply Hnext; [reflexivity|discriminate|reflexivity].
Defined.

(** *** C5 *)

Lemma cursor_stays_in_bounds_witness :
  reachable lower_simple int_decimal
    (snd (handle_recipe_navigation int_decimal (press 5 "next")
            (snd (process_search lower_simple (text_update 5)
                    (str "яйца, молоко") (fresh env_no_key)))))
  /\ 0 <= search_cursor
            (snd (handle_recipe_navigation int_decimal (press 5 "next")
                    (snd (process_search lower_simple (text_update 5)
                            (str "яйца, молоко") (fresh env_no_key)))))
       < 2.
Proof.
  assert (R : reachable lower_simple int_decimal
    (snd (handle_recipe_navigation int_decimal (press 5 "next")
            (snd (process_search lower_simple (text_update 5)
                    (str "яйца, молоко") (fresh env_no_key)))))).
  { apply reach_recipe_navigation, reach_process_search, reach_start.
    reflexivity. }
  split; [exact R|].
  destruct (cursor_stays_in_bounds lower_simple int_decimal) as (Hinv & _).
  destruct (Hinv _ R) as (Hsearch & _).
  apply Hsearch. vm_compute. discriminate.
Defined.

(** *** C6 *)

(** The session of user 5 is open on the one stored favorite 7; the same
    user, in another chat, searches and adds recipe 1; the remove press
    then empties the items and ends the session, with recipe 1 stored. *)
Lemma favorite_added_elsewhere_stays_stored :
  fst (show_favorites (text_update 5) (stored [sample_row 7 5]))
    = Ok (Some FAVORITES)
  /\ fst (handle_favorites_navigation int_decimal (press 5 "remove_7")
            (snd (handle_recipe_navigation int_decimal
                    {| from_user := 5; chat := 99; data := str "fav_1" |}
                    (snd (process_search lower_simple
                            {| effective_user := 5; effective_chat := 99;
                               has_message := true |}
                            (str "яйца, молоко")
                            (snd (show_favorites (text_update 5)
                                    (stored [sample_row 7 5]))))))))
     = Ok (Some END)
  /\ favorite_items
       (snd (handle_favorites_navigation int_decimal (press 5 "remove_7")
               (snd (handle_recipe_navigation int_decimal
                       {| from_user := 5; chat := 99; data := str "fav_1" |}
                       (snd (process_search lower_simple
                               {| effective_user := 5; effective_chat := 99;
                                  has_message := true |}
                               (str "яйца, молоко")
                               (snd (show_favorites (text_update 5)
                                       (stored [sample_row 7 5]))))))))) = []
  /\ map id
       (get_favorites 5
          (db (snd (handle_favorites_navigation int_decimal
                      (press 5 "remove_7")
                      (snd (handle_recipe_navigation int_decimal
                              {| from_user := 5; chat := 99;
                                 data := str "fav_1" |}
                              (snd (process_search lower_simple
                                      {| effective_user := 5;
                                         effective_chat := 99;
                                         has_message := true |}
                                      (str "яйца, молоко")
                                      (snd (show_favorites (text_update 5)
                                              (stored [sample_row 7 5])))))))))))
     = [1]
  /\ get_favorites 5
       (db (snd (handle_favorites_navigation int_decimal
                   (press 5 "remove_7")
                   (snd (handle_recipe_navigation int_decimal
                           {| from_user := 5; chat := 99;
                              data := str "fav_1" |}
                           (snd (process_search lower_simple
                                   {| effective_user := 5;
                                      effective_chat := 99;
                                      has_message := true |}
                                   (str "яйца, молоко")
                                   (snd (show_favorites (text_update 5)
                                           (stored [sample_row 7 5]))))))))))
     <> [].
Proof.
  do 4 (split; [reflexivity|]). vm_compute. discriminate.
Qed.

Lemma remove_in_favorites_mode_witness :
  startswith (data (press 5 "remove_7")) (str "remove_") = true
  /\ getitem (split 95 (data (press 5 "remove_7"))) 1 = Some (str "7")
  /\ int_decimal (str "7") = Some 7
  /\ favorites_session int_decimal 5
       (snd (show_favorites (text_update 5) (stored [sample_row 7 5])))
  /\ fst (handle_favorites_navigation int_decimal (press 5 "remove_7")
            (snd (show_favorites (text_update 5) (stored [sample_row 7 5]))))
     = Ok (Some END)
  /\ get_favorites 5
       (db (snd (handle_favorites_navigation int_decimal (press 5 "remove_7")
                   (snd (show_favorites (text_update 5)
                           (stored [sample_row 7 5]))))))
     = []
  /\ 0 <= favorite_cursor (browsing_favorites (map sample_recipe [1; 2; 7]) 2)
       < len (favorite_items
                (browsing_favorites (map sample_recipe [1; 2; 7]) 2))
  /\ fst (handle_favorites_navigation int_decimal (press 5 "remove_7")
            (browsing_favorites (map sample_recipe [1; 2; 7]) 2)) = Ok None
  /\ favorite_cursor
       (snd (handle_favorites_navigation int_decimal (press 5 "remove_7")
               (browsing_favorites (map sample_recipe [1; 2; 7]) 2))) = 1.
Proof.
  assert (S : favorites_session int_decimal 5
    (snd (show_favorites (text_update 5) (stored [sample_row 7 5])))).
  { apply (session_open int_decimal 5 (stored [sample_row 7 5])
             (text_update 5)); reflexivity. }
  assert (Hb : 0 <= favorite_cursor
                      (browsing_favorites (map sample_recipe [1; 2; 7]) 2)
               < len (favorite_items
                        (browsing_favorites (map sample_recipe [1; 2; 7]) 2)))
    by (vm_compute; split; [discriminate|reflexivity]).
  do 3 (split; [reflexivity|]). split; [exact S|].
  destruct (remove_in_favorites_mode int_decimal (press 5 "remove_7")
              (snd (show_favorites (text_update 5) (stored [sample_row 7 5])))
              (str "7") 7 eq_refl eq_refl eq_refl)
    as (_ & _ & _ & _ & _ & Hlast & _ & Hstep & Hsession).
  destruct (remove_in_favorites_mode int_decimal (press 5 "remove_7")
              (browsing_favorites (map sample_recipe [1; 2; 7]) 2)
              (str "7") 7 eq_refl eq_refl eq_refl)
    as (_ & _ & _ & _ & _ & _ & Hactive & _).
  split; [exact (proj1 (Hlast eq_refl))|].
  split; [exact (proj2 (Hstep (proj1 (Hsession S))) eq_refl)|].
  split; [exact Hb|].
  assert (Hne : filter (fun f => negb (id f =? 7))
                  (favorite_items
                     (browsing_favorites (map sample_recipe [1; 2; 7]) 2))
                <> []) by discriminate.
  exact (Hactive Hne Hb).
Defined.

(** *** C7 *)

(** Two spaces give two join tokens, where the wording gives one. *)
Lemma two_spaces_give_two_join_tokens :
  ingredients_param (params lower_simple (str "key") (str "eggs  milk"))
    = str "eggs++milk"
  /\ normalized_as_specified lower_simple (str "eggs  milk") = str "eggs+milk"
  /\ ingredients_param (params lower_simple (str "key") (str "eggs  milk"))
     <> normalized_as_specified lower_simple (str "eggs  milk").
Proof.
  split; [reflexivity|]. split; [reflexivity|]. vm_compute. discriminate.
Qed.

Lemma ingredients_of_request_witness :
  strip (str " Eggs  Milk ") = str "Eggs" ++ repeat 32%N 2 ++ str "Milk"
  /\ ingredients_param (params lower_simple (str "key") (str " Eggs  Milk "))
     = lower_simple (replace 32 (str "+") (str "Eggs") ++ repeat 43%N 2
                     ++ replace 32 (str "+") (str "Milk"))
  /\ isspace 69 = false.
Proof.
  destruct (ingredients_of_request lower_simple (str "key")
              (str " Eggs  Milk ")) as (_ & Hends & _ & Hrun).
  split; [reflexivity|]. split.
  - apply (Hrun (str "Eggs") (str "Milk") 2%nat). reflexivity.
  - apply Hends. left. reflexivity.
Defined.

(** *** C8 *)

Lemma toggle_favorite_frame_witness :
  startswith (data (press 5 "fav_2")) (str "fav_") = true
  /\ getitem (split 95 (data (press 5 "fav_2"))) 1 = Some (str "2")
  /\ int_decimal (str "2") = Some 2
  /\ find (fun r => id r =? 2)
          (search_items (browsing (map sample_recipe [1; 2; 3]) 1))
     = Some (sample_recipe 2)
  /\ is_favorite 2 5
       (db (snd (handle_recipe_navigation int_decimal (press 5 "fav_2")
                   (browsing (map sample_recipe [1; 2; 3]) 1))))
     = true
  /\ sent (snd (handle_recipe_navigation int_decimal (press 5 "fav_2")
                 (browsing (map sample_recipe [1; 2; 3]) 1)))
     = [answer;
        edit_message_reply_markup
          (Some
             [ [ {| text := str "В избранном";
                    callback_data := str "fav_2" |} ];
               [ {| text := str "Назад"; callback_data := str "prev" |};
                 {| text := str "2/3"; callback_data := str "count" |};
                 {| text := str "Далее"; callback_data := str "next" |} ];
               [ {| text := str "Закончить";
                    callback_data := str "done" |} ] ])]
  /\ ud (snd (handle_recipe_navigation int_decimal (press 5 "fav_2")
               (browsing (map sample_recipe [1; 2; 3]) 1)))
     = ud (browsing (map sample_recipe [1; 2; 3]) 1).
Proof.
  do 4 (split; [reflexivity|]).
  destruct (toggle_favorite_frame int_decimal (press 5 "fav_2")
              (browsing (map sample_recipe [1; 2; 3]) 1) (str "2") 2
              (sample_recipe 2) eq_refl eq_refl eq_refl eq_refl)
    as (_ & _ & Hfav & Hsent & _ & Hud & _).
  split; [exact Hfav|]. split; [exact Hsent|exact Hud].
Defined.

(** *** C9 *)

(** Eleven items sent by the service are eleven items returned. *)
Lemma eleven_items_are_returned :
  SPOONACULAR_API_KEY (env_answering 200 (Some eleven_recipes))
    = Some (str "key")
  /\ search_recipes lower_simple (env_answering 200 (Some eleven_recipes))
       (str "eggs, milk") = eleven_recipes
  /\ ~ len (search_recipes lower_simple
              (env_answering 200 (Some eleven_recipes)) (str "eggs, milk"))
       <= 10.
Proof.
  split; [reflexivity|]. split; [reflexivity|]. vm_compute. congruence.
Qed.

Lemma search_with_remote_success_witness :
  SPOONACULAR_API_KEY (env_answering 200 (Some [sample_recipe 1]))
    = Some (str "key")
  /\ truthy (str "key") = true
  /\ findByIngredients (env_answering 200 (Some [sample_recipe 1]))
       (params lower_simple (str "key") (str "eggs"))
     = Response 200 (Some [sample_recipe 1])
  /\ 200 <> 402
  /\ raise_for_status 200 = false
  /\ len [sample_recipe 1] <= 10
  /\ Forall counts_non_negative [sample_recipe 1]
  /\ len (search_recipes lower_simple
            (env_answering 200 (Some [sample_recipe 1])) (str "eggs")) <= 10
  /\ Forall counts_non_negative
       (search_recipes lower_simple
          (env_answering 200 (Some [sample_recipe 1])) (str "eggs")).
Proof.
  assert (H402 : 200 <> 402) by discriminate.
  assert (Hlen : len [sample_recipe 1] <= 10) by (vm_compute; discriminate).
  assert (Hcounts : Forall counts_non_negative [sample_recipe 1]).
  { repeat constructor; simpl; lia. }
  do 3 (split; [reflexivity|]).
  split; [exact H402|]. split; [reflexivity|].
  split; [exact Hlen|]. split; [exact Hcounts|].
  destruct (search_with_remote_success lower_simple
              (env_answering 200 (Some [sample_recipe 1])) (str "eggs")
              (str "key") 200 [sample_recipe 1]
              eq_refl eq_refl eq_refl H402 eq_refl) as (_ & _ & H).
  exact (H Hlen Hcounts).
Defined.

(** ** More of the program on concrete inputs *)

Lemma store_changes_one_pair_witness :
  (8 <> id (sample_recipe 7) \/ 5 <> 5)
  /\ 5 <> 6
  /\ is_favorite 8 5 (add_favorite (sample_recipe 7) 5 [sample_row 8 5])
     = is_favorite 8 5 [sample_row 8 5]
  /\ is_favorite 8 5 (remove_favorite 7 5 [sample_row 8 5])
     = is_favorite 8 5 [sample_row 8 5]
  /\ get_favorites 6 (remove_favorite 7 5 [sample_row 7 6])
     = get_favorites 6 [sample_row 7 6].
Proof.
  assert (H1 : 8 <> id (sample_recipe 7) \/ 5 <> 5) by (left; discriminate).
  assert (H2 : 8 <> 7 \/ 5 <> 5) by (left; discriminate).
  assert (H3 : 5 <> 6) by discriminate.
  split; [exact H1|]. split; [exact H3|].
  destruct (store_changes_one_pair (sample_recipe 7) 7 5 8 5 [sample_row 8 5])
    as (Hadd & Hrem & _).
  destruct (store_changes_one_pair (sample_recipe 7) 7 5 8 6 [sample_row 7 6])
    as (_ & _ & Hother).
  split; [exact (Hadd H1)|]. split; [exact (Hrem H2)|].
  exact (proj2 (Hother H3)).
Defined.

Lemma is_favorite_agrees_with_list_witness :
  is_favorite 8 5 [sample_row 7 5; sample_row 8 5] = true
  /\ exists f, In f (get_favorites 5 [sample_row 7 5; sample_row 8 5])
               /\ id f = 8.
Proof.
  split; [reflexivity|].
  apply (proj1 (is_favorite_agrees_with_list 8 5
                  [sample_row 7 5; sample_row 8 5])).
  reflexivity.
Defined.

Lemma add_then_remove_restores_witness :
  is_favorite (id (sample_recipe 7)) 5 [sample_row 8 5] = false
  /\ remove_favorite 7 5 (add_favorite (sample_recipe 7) 5 [sample_row 8 5])
     = [sample_row 8 5].
Proof.
  split; [reflexivity|].
  exact (proj1 (add_then_remove_restores (sample_recipe 7) 5
                  [sample_row 8 5] eq_refl)).
Defined.

Lemma handlers_store_each_pair_once_witness :
  stored_once (db (browsing (map sample_recipe [1; 2; 3]) 1))
  /\ stored_once
       (db (snd (handle_recipe_navigation int_decimal (press 5 "fav_2")
                   (browsing (map sample_recipe [1; 2; 3]) 1)))).
Proof.
  assert (H : stored_once (db (browsing (map sample_recipe [1; 2; 3]) 1)))
    by constructor.
  split; [exact H|].
  destruct (handlers_store_each_pair_once lower_simple int_decimal _ H)
    as (_ & _ & Hnav & _).
  apply Hnav.
Defined.

Lemma press_leaves_other_users_witness :
  from_user (press 5 "remove_7") <> 6
  /\ get_favorites 6
       (db (snd (handle_favorites_navigation int_decimal (press 5 "remove_7")
                   (stored [sample_row 7 5; sample_row 7 6]))))
     = get_favorites 6 (db (stored [sample_row 7 5; sample_row 7 6])).
Proof.
  assert (H : from_user (press 5 "remove_7") <> 6) by discriminate.
  split; [exact H|].
  exact (proj2 (press_leaves_other_users int_decimal (press 5 "remove_7")
                  (stored [sample_row 7 5; sample_row 7 6]) 6 H)).
Defined.

Lemma recipe_details_outcomes_witness :
  getenv_truthy (SPOONACULAR_API_KEY
                   (env_detailing 200 (Some sample_information))) = true
  /\ recipe_information (env_detailing 200 (Some sample_information)) 7
     = Response 200 (Some sample_information)
  /\ raise_for_status 200 = false
  /\ recipe_information (env_detailing 402 (Some sample_information)) 7
     = Response 402 (Some sample_information)
  /\ 400 <= 402 < 600
  /\ get_recipe_details (env_detailing 402 (Some sample_information)) 7 = None
  /\ exists ingredients instructions,
       get_recipe_details (env_detailing 200 (Some sample_information)) 7
         = Some (ingredients, instructions)
       /\ ingredients = not_specified /\ instructions = not_specified.
Proof.
  assert (H402 : 400 <= 402 < 600) by lia.
  do 4 (split; [reflexivity|]). split; [exact H402|]. split.
  - destruct (recipe_details_outcomes
                (env_detailing 402 (Some sample_information)) 7)
      as (_ & _ & Hstatus & _).
    exact (Hstatus 402 (Some sample_information) eq_refl H402).
  - destruct (recipe_details_outcomes
                (env_detailing 200 (Some sample_information)) 7)
      as (_ & _ & _ & _ & Hok).
    destruct (Hok 200 sample_information eq_refl eq_refl eq_refl)
      as (ing & ins & E & _ & _ & Hing & _ & Hins & _).
    exists ing, ins. split; [exact E|]. split.
    + apply Hing. reflexivity.
    + apply (Hins [[(1, str "Mix")]]). reflexivity.
Defined.

Lemma local_details_cover_local_search_witness :
  getenv_truthy (SPOONACULAR_API_KEY env_no_key) = false
  /\ In (nth 0 basic_recipes (sample_recipe 0))
        (search_recipes lower_simple env_no_key (str "яйца, молоко"))
  /\ 7 <> 1 /\ 7 <> 2
  /\ (exists ingredients_text instructions,
        full_recipe_info_of env_no_key
          (id (nth 0 basic_recipes (sample_recipe 0)))
        = Some (ingredients_text, instructions)
        /\ ingredients_text <> [] /\ instructions <> [])
  /\ full_recipe_info_of env_no_key 7 = None.
Proof.
  assert (Hin : In (nth 0 basic_recipes (sample_recipe 0))
                   (search_recipes lower_simple env_no_key
                      (str "яйца, молоко"))) by (left; reflexivity).
  assert (H1 : 7 <> 1) by discriminate.
  assert (H2 : 7 <> 2) by discriminate.
  split; [reflexivity|]. split; [exact Hin|].
  split; [exact H1|]. split; [exact H2|].
  destruct (local_details_cover_local_search lower_simple env_no_key eq_refl)
    as (Hcover & Hnone).
  split; [exact (Hcover _ _ Hin)|exact (proj1 (Hnone 7 H1 H2))].
Defined.

Lemma press_without_items_raises_witness :
  search_items (fresh env_no_key) = []
  /\ data (press 5 "next") <> str "done"
  /\ startswith (data (press 5 "next")) (str "fav_") = false
  /\ fst (handle_recipe_navigation int_decimal (press 5 "next")
            (fresh env_no_key)) = Raise AttributeError.
Proof.
  assert (H : data (press 5 "next") <> str "done") by discriminate.
  split; [reflexivity|]. split; [exact H|]. split; [reflexivity|].
  destruct (press_without_items_raises int_decimal (press 5 "next")
              (fresh env_no_key)) as (Hsearch & _).
  exact (proj1 (Hsearch eq_refl H eq_refl)).
Defined.

Lemma press_with_bad_id_raises_witness :
  startswith (data (press 5 "fav_prev")) (str "fav_") = true
  /\ getitem (split 95 (data (press 5 "fav_prev"))) 1 = Some (str "prev")
  /\ int_decimal (str "prev") = None
  /\ fst (handle_recipe_navigation int_decimal (press 5 "fav_prev")
            (browsing (map sample_recipe [1; 2; 3]) 1)) = Raise ValueError.
Proof.
  do 3 (split; [reflexivity|]).
  destruct (press_with_bad_id_raises int_decimal (press 5 "fav_prev")
              (browsing (map sample_recipe [1; 2; 3]) 1)) as (Hfav & _).
  destruct (Hfav eq_refl) as (part & Hpart & Hraise).
  assert (E : part = str "prev").
  { assert (Some part = Some (str "prev")) as E by (rewrite <- Hpart; reflexivity).
    now inversion E. }
  subst part. exact (proj1 (Hraise eq_refl)).
Defined.

Lemma terminate_keeps_state_witness :
  data (press 5 "done") = str "done"
  /\ fst (handle_recipe_navigation int_decimal (press 5 "done")
            (browsing (map sample_recipe [1; 2; 3]) 1)) = Ok (Some END)
  /\ ud (snd (handle_recipe_navigation int_decimal (press 5 "done")
                (browsing (map sample_recipe [1; 2; 3]) 1)))
     = ud (browsing (map sample_recipe [1; 2; 3]) 1).
Proof.
  split; [reflexivity|].
  destruct (terminate_keeps_state int_decimal (press 5 "done")
              (browsing (map sample_recipe [1; 2; 3]) 1)) as (Hdone & _).
  destruct (Hdone eq_refl) as (Hres & Hud & _).
  split; [exact Hres|exact Hud].
Defined.

Lemma unknown_press_only_renders_witness :
  data (press 5 "count") <> str "prev"
  /\ data (press 5 "count") <> str "next"
  /\ data (press 5 "count") <> str "done"
  /\ startswith (data (press 5 "count")) (str "fav_") = false
  /\ 0 <= search_cursor (browsing (map sample_recipe [1; 2; 3]) 1)
       < len (search_items (browsing (map sample_recipe [1; 2; 3]) 1))
  /\ search_cursor
       (snd (handle_recipe_navigation int_decimal (press 5 "count")
               (browsing (map sample_recipe [1; 2; 3]) 1))) = 1
  /\ fst (handle_recipe_navigation int_decimal (press 5 "count")
            (browsing (map sample_recipe [1; 2; 3]) 1)) = Ok None.
Proof.
  assert (H1 : data (press 5 "count") <> str "prev") by discriminate.
  assert (H2 : data (press 5 "count") <> str "next") by discriminate.
  assert (H3 : data (press 5 "count") <> str "done") by discriminate.
  assert (Hb : 0 <= search_cursor (browsing (map sample_recipe [1; 2; 3]) 1)
               < len (search_items (browsing (map sample_recipe [1; 2; 3]) 1)))
    by (vm_compute; split; [discriminate|reflexivity]).
  split; [exact H1|]. split; [exact H2|]. split; [exact H3|].
  split; [reflexivity|]. split; [exact Hb|].
  destruct (unknown_press_only_renders int_decimal (press 5 "count")
              (browsing (map sample_recipe [1; 2; 3]) 1)) as (Hsearch & _).
  destruct (Hsearch H1 H2 H3 eq_refl) as (_ & Hc & _ & Hres).
  split; [exact Hc|exact (Hres Hb)].
Defined.

Lemma process_search_outcomes_witness :
  has_message (text_update 5) = true
  /\ search_recipes lower_simple (environ (fresh env_no_key))
       (str "eggs, milk") = []
  /\ search_recipes lower_simple (environ (fresh env_no_key))
       (str "Яйца, молоко") = basic_recipes
  /\ fst (process_search lower_simple (text_update 5) (str "eggs, milk")
            (fresh env_no_key)) = Ok (Some END)
  /\ fst (process_search lower_simple (text_update 5) (str "Яйца, молоко")
            (fresh env_no_key)) = Ok (Some SEARCH)
  /\ exists photo caption,
       sent (snd (process_search lower_simple (text_update 5)
                    (str "Яйца, молоко") (fresh env_no_key)))
       = [reply_text (str "Ищу рецепты с: Яйца, молоко...");
          send_photo 5 photo caption
            [ [ {| text := str "Добавить в избранное";
                   callback_data := str "fav_1" |} ];
              [ {| text := str "Назад"; callback_data := str "prev" |};
                {| text := str "1/2"; callback_data := str "count" |};
                {| text := str "Далее"; callback_data := str "next" |} ];
              [ {| text := str "Закончить"; callback_data := str "done" |} ] ]].
Proof.
  do 3 (split; [reflexivity|]). split.
  - destruct (process_search_outcomes lower_simple (text_update 5)
                (str "eggs, milk") (fresh env_no_key) eq_refl)
      as (Hnone & _).
    exact (proj1 (Hnone eq_refl)).
  - destruct (process_search_outcomes lower_simple (text_update 5)
                (str "Яйца, молоко") (fresh env_no_key) eq_refl)
      as (_ & Hsome & _).
    destruct (Hsome _ _ eq_refl) as (Hres & _ & _ & Hsent).
    split; [exact Hres|].
    eexists. eexists. rewrite Hsent. reflexivity.
Defined.

Lemma show_favorites_outcomes_witness :
  get_favorites (effective_user (text_update 5)) (db (fresh env_no_key)) = []
  /\ has_message (text_update 5) = true
  /\ get_favorites (effective_user (text_update 5))
       (db (stored [sample_row 7 5; sample_row 8 5]))
     = [sample_recipe 7; sample_recipe 8]
  /\ fst (show_favorites (text_update 5) (fresh env_no_key)) = Ok None
  /\ fst (show_favorites (text_update 5)
            (stored [sample_row 7 5; sample_row 8 5]))
     = Ok (Some FAVORITES)
  /\ exists caption,
       sent (snd (show_favorites (text_update 5)
                    (stored [sample_row 7 5; sample_row 8 5])))
       = [send_message 5 caption
            [ [ {| text := str "Удалить";
                   callback_data := str "remove_7" |} ];
              [ {| text := str "Назад"; callback_data := str "fav_prev" |};
                {| text := str "1/2"; callback_data := str "fav_count" |};
                {| text := str "Далее"; callback_data := str "fav_next" |} ];
              [ {| text := str "Закончить";
                   callback_data := str "fav_done" |} ] ]].
Proof.
  do 3 (split; [reflexivity|]). split.
  - destruct (show_favorites_outcomes (text_update 5) (fresh env_no_key))
      as (Hnone & _).
    exact (proj1 (Hnone eq_refl eq_refl)).
  - destruct (show_favorites_outcomes (text_update 5)
                (stored [sample_row 7 5; sample_row 8 5])) as (_ & Hsome).
    destruct (Hsome _ _ eq_refl) as (Hres & _ & _ & _ & Hsent).
    split; [exact Hres|].
    eexists. rewrite Hsent. reflexivity.
Defined.

Lemma next_and_prev_are_inverse_witness :
  data (press 5 "next") = str "next"
  /\ data (press 5 "prev") = str "prev"
  /\ 0 <= search_cursor (browsing (map sample_recipe [1; 2; 3]) 1)
       < len (search_items (browsing (map sample_recipe [1; 2; 3]) 1)) - 1
  /\ search_cursor
       (snd (handle_recipe_navigation int_decimal (press 5 "prev")
               (snd (handle_recipe_navigation int_decimal (press 5 "next")
                       (browsing (map sample_recipe [1; 2; 3]) 1))))) = 1.
Proof.
  assert (Hb : 0 <= search_cursor (browsing (map sample_recipe [1; 2; 3]) 1)
               < len (search_items (browsing (map sample_recipe [1; 2; 3]) 1))
                 - 1)
    by (vm_compute; split; [discriminate|reflexivity]).
  do 2 (split; [reflexivity|]). split; [exact Hb|].
  destruct (next_and_prev_are_inverse int_decimal (press 5 "next")
              (press 5 "prev") (browsing (map sample_recipe [1; 2; 3]) 1))
    as (Hsearch & _).
  exact (proj1 (Hsearch eq_refl eq_refl) Hb).
Defined.

Lemma press_moves_and_renders_witness :
  data (press 5 "next") = str "next"
  /\ 0 <= search_cursor (browsing (map sample_recipe [1; 2; 3]) 1)
       < len (search_items (browsing (map sample_recipe [1; 2; 3]) 1)) - 1
  /\ getitem (search_items (browsing (map sample_recipe [1; 2; 3]) 1))
       (search_cursor (browsing (map sample_recipe [1; 2; 3]) 1) + 1)
     = Some (sample_recipe 3)
  /\ fst (handle_recipe_navigation int_decimal (press 5 "next")
            (browsing (map sample_recipe [1; 2; 3]) 1)) = Ok None
  /\ search_cursor
       (snd (handle_recipe_navigation int_decimal (press 5 "next")
               (browsing (map sample_recipe [1; 2; 3]) 1))) = 1 + 1
  /\ exists caption,
       sent (snd (handle_recipe_navigation int_decimal (press 5 "next")
                    (browsing (map sample_recipe [1; 2; 3]) 1)))
       = [answer;
          send_message 5 caption
            [ [ {| text := str "Добавить в избранное";
                   callback_data := str "fav_3" |} ];
              [ {| text := str "Назад"; callback_data := str "prev" |};
                {| text := str "3/3"; callback_data := str "count" |};
                {| text := str "Далее"; callback_data := str "next" |} ];
              [ {| text := str "Закончить"; callback_data := str "done" |} ] ]].
Proof.
  assert (Hb : 0 <= search_cursor (browsing (map sample_recipe [1; 2; 3]) 1)
               < len (search_items (browsing (map sample_recipe [1; 2; 3]) 1))
                 - 1)
    by (vm_compute; split; [discriminate|reflexivity]).
  split; [reflexivity|]. split; [exact Hb|]. split; [reflexivity|].
  destruct (press_moves_and_renders int_decimal (press 5 "next")
              (browsing (map sample_recipe [1; 2; 3]) 1) (sample_recipe 3))
    as (Hnext & _).
  destruct (Hnext eq_refl Hb eq_refl) as (Hres & Hc & Hsent).
  split; [exact Hres|]. split; [exact Hc|].
  eexists. rewrite Hsent. reflexivity.
Defined.

Lemma button_data_round_trip_witness :
  (forall n, int_decimal (str_of_int n) = Some n)
  /\ exists button others rows,
       recipe_keyboard true (sample_recipe (-4)) 0 1
         = (button :: others) :: rows
       /\ action_id int_decimal (callback_data button) (fresh env_no_key)
          = (Ok (-4), fresh env_no_key).
Proof.
  split; [exact int_decimal_str_of_int|].
  destruct (button_data_round_trip int_decimal (sample_recipe (-4)) true 0 1
              (fresh env_no_key) int_decimal_str_of_int)
    as ((button & others & rows & E & _ & A) & _).
  exists button, others, rows. split; [exact E|exact A].
Defined.

Lemma sample_ids_distinct :
  NoDup (map id (map sample_recipe [1; 2; 3])).
Proof.
  repeat constructor; simpl; intros H;
    repeat (destruct H as [H|H]; [discriminate H|]); exact H.
Qed.

Lemma press_favorite_of_current_item_witness :
  (forall n, int_decimal (str_of_int n) = Some n)
  /\ 0 <= search_cursor (browsing (map sample_recipe [1; 2; 3]) 1)
       < len (search_items (browsing (map sample_recipe [1; 2; 3]) 1))
  /\ getitem (search_items (browsing (map sample_recipe [1; 2; 3]) 1))
       (search_cursor (browsing (map sample_recipe [1; 2; 3]) 1))
     = Some (sample_recipe 2)
  /\ NoDup (map id (search_items (browsing (map sample_recipe [1; 2; 3]) 1)))
  /\ data (press 5 "fav_2") = str "fav_" ++ str_of_int (id (sample_recipe 2))
  /\ get_favorites 5 (db (browsing (map sample_recipe [1; 2; 3]) 1)) = []
  /\ get_favorites 5
       (db (snd (handle_recipe_navigation int_decimal (press 5 "fav_2")
                   (browsing (map sample_recipe [1; 2; 3]) 1))))
     = [sample_recipe 2].
Proof.
  assert (Hb : 0 <= search_cursor (browsing (map sample_recipe [1; 2; 3]) 1)
               < len (search_items (browsing (map sample_recipe [1; 2; 3]) 1)))
    by (vm_compute; split; [discriminate|reflexivity]).
  split; [exact int_decimal_str_of_int|]. split; [exact Hb|].
  split; [reflexivity|]. split; [exact sample_ids_distinct|].
  split; [reflexivity|]. split; [reflexivity|].
  destruct (press_favorite_of_current_item int_decimal (press 5 "fav_2")
              (browsing (map sample_recipe [1; 2; 3]) 1) (sample_recipe 2)
              int_decimal_str_of_int Hb eq_refl sample_ids_distinct eq_refl)
    as (_ & _ & _ & Hone).
  exact (Hone eq_refl).
Defined.

Lemma remove_current_shows_neighbour_witness :
  startswith (data (press 5 "remove_2")) (str "remove_") = true
  /\ getitem (split 95 (data (press 5 "remove_2"))) 1 = Some (str "2")
  /\ int_decimal (str "2") = Some (id (sample_recipe 2))
  /\ 0 <= favorite_cursor (browsing_favorites (map sample_recipe [1; 2; 3]) 1)
       < len (favorite_items
                (browsing_favorites (map sample_recipe [1; 2; 3]) 1))
  /\ getitem (favorite_items
                (browsing_favorites (map sample_recipe [1; 2; 3]) 1))
       (favorite_cursor (browsing_favorites (map sample_recipe [1; 2; 3]) 1))
     = Some (sample_recipe 2)
  /\ NoDup (map id (favorite_items
                      (browsing_favorites (map sample_recipe [1; 2; 3]) 1)))
  /\ 1 < len (favorite_items
                (browsing_favorites (map sample_recipe [1; 2; 3]) 1))
  /\ fst (handle_favorites_navigation int_decimal (press 5 "remove_2")
            (browsing_favorites (map sample_recipe [1; 2; 3]) 1)) = Ok None
  /\ len (favorite_items
            (snd (handle_favorites_navigation int_decimal (press 5 "remove_2")
                    (browsing_favorites (map sample_recipe [1; 2; 3]) 1))))
     = 3 - 1.
Proof.
  assert (Hb : 0 <= favorite_cursor
                      (browsing_favorites (map sample_recipe [1; 2; 3]) 1)
               < len (favorite_items
                        (browsing_favorites (map sample_recipe [1; 2; 3]) 1)))
    by (vm_compute; split; [discriminate|reflexivity]).
  assert (Hlen : 1 < len (favorite_items
                            (browsing_favorites
                               (map sample_recipe [1; 2; 3]) 1)))
    by (vm_compute; reflexivity).
  do 3 (split; [reflexivity|]). split; [exact Hb|]. split; [reflexivity|].
  split; [exact sample_ids_distinct|]. split; [exact Hlen|].
  destruct (remove_current_shows_neighbour int_decimal (press 5 "remove_2")
              (browsing_favorites (map sample_recipe [1; 2; 3]) 1)
              (sample_recipe 2) (str "2")
              eq_refl eq_refl eq_refl Hb eq_refl sample_ids_distinct Hlen)
    as (Hres & Hl & _).
  split; [exact Hres|exact Hl].
Defined.
